(* Shallow embedding of klippy/extras/heaters.py: the Heater object, its
   profile manager, the three control algorithms (bang-bang, PID,
   velocity PID) and the PrinterHeaters registry.

   Python floats are modelled by rationals (Q); the Python truthiness test
   `if x:` on a float is `~ x == 0`.  Raising an exception is an [Error]
   result of the method. *)

From Stdlib Require Import QArith Qabs Qminmax ZArith Lia Lqa.
From stdpp Require Import base gmap strings.

Open Scope Q_scope.

(* ------------------------------------------------------------------ *)
(** * Python helpers *)

(** Strict comparison of floats, [a < b]. *)
Definition Qlt_bool (a b : Q) : bool := negb (Qle_bool b a).

(** Python's [max(a, b)] / [min(a, b)] on floats (first argument wins ties). *)
Definition py_max (a b : Q) : Q := if Qlt_bool a b then b else a.
Definition py_min (a b : Q) : Q := if Qlt_bool b a then b else a.

(** Python truthiness of a float: [bool(x)] is [x != 0.]. *)
Definition py_truthy (x : Q) : bool := negb (Qeq_bool x 0).

(** [(x > 0.) - (x < 0.)]: the sign idiom used by [ControlPID]. *)
Definition py_sign (x : Q) : Z :=
  ((if Qlt_bool 0 x then 1 else 0) - (if Qlt_bool x 0 then 1 else 0))%Z.

Definition Qabs_py (x : Q) : Q := if Qlt_bool x 0 then - x else x.

(* ------------------------------------------------------------------ *)
(** * Module constants *)

Definition MAX_HEAT_TIME : Q := 5.
Definition PID_PROFILE_VERSION : Z := 1.

(* ------------------------------------------------------------------ *)
(** * The Heater object *)

Module Heater.

(** Configuration read once in [Heater.__init__]. *)
Record config := mk_config {
  min_temp : Q;
  max_temp : Q;
  max_set_temp : Q;
  max_power : Q;
  pwm_delay : Q
}.

(** Mutable fields of a [Heater], and the trace of writes to [mcu_pwm]
    (most recent first): each element is [(pwm_time, value)]. *)
Record state := mk_state {
  target_temp : Q;
  is_shutdown : bool;
  next_pwm_time : Q;
  last_pwm_value : Q;
  last_temp : Q;
  last_temp_time : Q;
  smoothed_temp : Q;
  inv_smooth_time : Q;
  mcu_writes : list (Q * Q)
}.

(** State right after [__init__]. *)
Definition init_state (inv_smooth : Q) : state :=
  mk_state 0 false 0 0 0 0 0 inv_smooth [].

(** Result of a method that may raise [command_error]. *)
Inductive result (A : Type) :=
| Ok (a : A)
| Error (msg : string).
Arguments Ok {A}.
Arguments Error {A}.

Section Ops.
Variable cfg : config.

(** [Heater.set_pwm] *)
Definition set_pwm (s : state) (read_time value : Q) : state :=
  let value := if orb (Qle_bool (target_temp s) 0) (is_shutdown s)
               then 0 else value in
  if andb (orb (Qlt_bool read_time (next_pwm_time s))
               (negb (py_truthy (last_pwm_value s))))
          (Qlt_bool (Qabs_py (value - last_pwm_value s)) (5 # 100))
  then s
  else
    let pwm_time := read_time + pwm_delay cfg in
    mk_state (target_temp s) (is_shutdown s)
             (pwm_time + (75 # 100) * MAX_HEAT_TIME) value
             (last_temp s) (last_temp_time s) (smoothed_temp s)
             (inv_smooth_time s) ((pwm_time, value) :: mcu_writes s).

(** [Heater._handle_shutdown] *)
Definition handle_shutdown (s : state) : state :=
  mk_state (target_temp s) true (next_pwm_time s) (last_pwm_value s)
           (last_temp s) (last_temp_time s) (smoothed_temp s)
           (inv_smooth_time s) (mcu_writes s).

Definition with_target (s : state) (t : Q) : state :=
  mk_state t (is_shutdown s) (next_pwm_time s) (last_pwm_value s)
           (last_temp s) (last_temp_time s) (smoothed_temp s)
           (inv_smooth_time s) (mcu_writes s).

(** [Heater.set_temp]; the error message is abbreviated. *)
Definition set_temp (s : state) (degrees : Q) : result state :=
  if andb (py_truthy degrees)
          (orb (Qlt_bool degrees (min_temp cfg))
               (Qlt_bool (max_set_temp cfg) degrees))
  then Error "Requested temperature out of range"
  else Ok (with_target s degrees).

(** [Heater.get_temp]; [print_time] is
    [estimated_print_time(eventtime) - 5.], supplied by the MCU clock. *)
Definition get_temp (s : state) (est_print_time : Q) : Q * Q :=
  let print_time := est_print_time - 5 in
  if Qlt_bool (last_temp_time s) print_time
  then (0, target_temp s)
  else (smoothed_temp s, target_temp s).

(** [Heater.alter_target] *)
Definition alter_target (s : state) (target : Q) : state :=
  let target := if py_truthy target
                then py_max (min_temp cfg) (py_min (max_temp cfg) target)
                else target in
  with_target s target.

(** [Heater.set_control(control, keep_target)]: only the target is a field
    of this record. *)
Definition set_control (s : state) (keep_target : bool) : state :=
  if keep_target then s else with_target s 0.

(** [Heater.set_inv_smooth_time] *)
Definition set_inv_smooth_time (s : state) (inv : Q) : state :=
  mk_state (target_temp s) (is_shutdown s) (next_pwm_time s)
           (last_pwm_value s) (last_temp s) (last_temp_time s)
           (smoothed_temp s) inv (mcu_writes s).

(** [Heater.temperature_callback]: [duty] is the value the control
    algorithm's [temperature_update] hands to [set_pwm] (see the control
    modules below); the heater then updates its smoothed temperature. *)
Definition temperature_callback (s : state) (read_time temp duty : Q)
  : state :=
  let time_diff := read_time - last_temp_time s in
  let s1 := mk_state (target_temp s) (is_shutdown s) (next_pwm_time s)
                     (last_pwm_value s) temp read_time (smoothed_temp s)
                     (inv_smooth_time s) (mcu_writes s) in
  let s2 := set_pwm s1 read_time duty in
  let temp_diff := temp - smoothed_temp s2 in
  let adj_time := py_min (time_diff * inv_smooth_time s2) 1 in
  mk_state (target_temp s2) (is_shutdown s2) (next_pwm_time s2)
           (last_pwm_value s2) (last_temp s2) (last_temp_time s2)
           (smoothed_temp s2 + temp_diff * adj_time)
           (inv_smooth_time s2) (mcu_writes s2).

(** The heater's mutating entry points. *)
Inductive op :=
| OpSetPwm (read_time value : Q)
| OpTemperatureCallback (read_time temp duty : Q)
| OpSetTemp (degrees : Q)
| OpAlterTarget (target : Q)
| OpSetControl (keep_target : bool)
| OpSetInvSmoothTime (inv : Q)
| OpShutdown.

(** One call; a raising [set_temp] leaves the state as it was. *)
Definition step (s : state) (o : op) : state :=
  match o with
  | OpSetPwm rt v => set_pwm s rt v
  | OpTemperatureCallback rt t d => temperature_callback s rt t d
  | OpSetTemp d => match set_temp s d with Ok s' => s' | Error _ => s end
  | OpAlterTarget t => alter_target s t
  | OpSetControl k => set_control s k
  | OpSetInvSmoothTime i => set_inv_smooth_time s i
  | OpShutdown => handle_shutdown s
  end.

Definition run (s : state) (ops : list op) : state := fold_left step ops s.

End Ops.
End Heater.

(* ------------------------------------------------------------------ *)
(** * ControlBangBang *)

Module BangBang.

Record state := mk_state { heating : bool }.

(** [ControlBangBang.temperature_update]: the new control state and the
    duty passed to [heater.set_pwm]. *)
Definition temperature_update (heater_max_power max_delta : Q) (s : state)
    (temp target_temp : Q) : state * Q :=
  let h :=
    if andb (heating s) (Qle_bool (target_temp + max_delta) temp) then false
    else if andb (negb (heating s)) (Qle_bool temp (target_temp - max_delta))
    then true
    else heating s in
  (mk_state h, if h then heater_max_power else 0).

End BangBang.

(* ------------------------------------------------------------------ *)
(** * ControlPID *)

Module PID.

(** Constants fixed by [ControlPID.__init__]: [Kp], [Ki], [Kd] already
    divided by [PID_PARAM_BASE], [dt = heater.pwm_delay] and
    [smooth = 1 + smooth_time / dt].  [__init__] divides by [dt], so a
    constructed controller has [dt != 0]. *)
Record params := mk_params {
  Kp : Q; Ki : Q; Kd : Q;
  heater_max_power : Q;
  dt : Q;
  smooth : Q
}.

Record state := mk_state {
  prev_temp : Q;
  prev_err : Q;
  prev_der : Q;
  int_sum : Q
}.

Section Update.
Variable P : params.

(** The intermediate values of [temperature_update]. *)
Definition err_of (temp target_temp : Q) : Q := target_temp - temp.
Definition ic_of (s : state) (temp target_temp : Q) : Q :=
  ((prev_err s + err_of temp target_temp) / 2) * dt P.
Definition dc_of (s : state) (temp : Q) : Q :=
  let dc := - (temp - prev_temp s) / dt P in
  ((smooth P - 1) * prev_der s + dc) / smooth P.
Definition o_of (s : state) (temp target_temp : Q) : Q :=
  Kp P * err_of temp target_temp
  + Ki P * (int_sum s + ic_of s temp target_temp)
  + Kd P * dc_of s temp.

(** [ControlPID.temperature_update]: the new state and the duty passed to
    [heater.set_pwm] (the saturated output [so]). *)
Definition temperature_update (s : state) (temp target_temp : Q)
  : state * Q :=
  let err := target_temp - temp in
  let ic := ((prev_err s + err) / 2) * dt P in
  let i := int_sum s + ic in
  let dc := - (temp - prev_temp s) / dt P in
  let dc := ((smooth P - 1) * prev_der s + dc) / smooth P in
  let o := Kp P * err + Ki P * i + Kd P * dc in
  let so := py_max 0 (py_min (heater_max_power P) o) in
  let s' :=
    if Qlt_bool 0 target_temp then
      if Qeq_bool o so then mk_state temp err dc i
      else if negb (Z.eqb (py_sign o) (py_sign ic)) then mk_state temp err dc i
      else mk_state temp err dc (int_sum s)
    else mk_state temp 0 dc 0 in
  (s', so).

End Update.
End PID.

(* ------------------------------------------------------------------ *)
(** * ControlVelocityPID *)

Module VelocityPID.

Record params := mk_params {
  Kp : Q; Ki : Q; Kd : Q;
  heater_max_power : Q;
  smooth_time : Q
}.

(** [temps] and [times] are the three-element Python lists, oldest first. *)
Record state := mk_state {
  temps : list Q;
  times : list Q;
  d1 : Q;
  d2 : Q;
  pwm : Q
}.

(** Outcome of a call: it completes with the duty passed to [set_pwm], or
    it raises [ZeroDivisionError] after having already rotated the two
    lists. *)
Inductive outcome :=
| Done (s : state) (duty : Q)
| Raised (s : state).

Definition outcome_state (r : outcome) : state :=
  match r with Done s _ => s | Raised s => s end.

(** [lst[-k]] for k = 1, 2, 3. *)
Definition last1 (l : list Q) : Q := nth (length l - 1) l 0.
Definition last2 (l : list Q) : Q := nth (length l - 2) l 0.
Definition last3 (l : list Q) : Q := nth (length l - 3) l 0.

(** [lst.pop(0); lst.append(x)] *)
Definition rotate (l : list Q) (x : Q) : list Q := tl l ++ [x].

Section Update.
Variable P : params.

(** [ControlVelocityPID.temperature_update] *)
Definition temperature_update (s : state) (read_time temp target_temp : Q)
  : outcome :=
  let temps' := rotate (temps s) temp in
  let times' := rotate (times s) read_time in
  let rotated := mk_state temps' times' (d1 s) (d2 s) (pwm s) in
  let d1c := last1 temps' - last2 temps' in
  let err := (last1 times' - last2 times') * (target_temp - last1 temps') in
  let tdiff := last1 times' - last2 times' in
  if Qeq_bool tdiff 0 then Raised rotated
  else
    let d2c := (last1 temps' - 2 * last2 temps' + last3 temps') / tdiff in
    let n := py_max 1 (smooth_time P / tdiff) in
    let nd1 := ((n - 1) * d1 s + d1c) / n in
    let nd2 := ((n - 1) * d2 s + d2c) / n in
    let p := Kp P * - nd1 in
    let i := Ki P * err in
    let d := Kd P * - nd2 in
    let npwm :=
      if Qlt_bool 0 target_temp
      then py_max 0 (py_min (heater_max_power P) (pwm s + p + i + d))
      else 0 in
    Done (mk_state temps' times' nd1 nd2 npwm) npwm.

(** A sequence of samples [(read_time, temp, target_temp)]; a raised call
    leaves the partially updated state behind. *)
Fixpoint run (s : state) (samples : list (Q * Q * Q)) : state :=
  match samples with
  | [] => s
  | (rt, t, tg) :: rest =>
      run (outcome_state (temperature_update s rt t tg)) rest
  end.

End Update.
End VelocityPID.

(* ------------------------------------------------------------------ *)
(** * Heater.ProfileManager *)

Module ProfileManager.

(** A profile dict: its ['control'] and ['name'] entries, and the numeric
    entries that are not [None] (['pid_target'], ['pid_kp'],
    ['max_delta'], ...). *)
Record profile := mk_profile {
  control : string;
  name : string;
  values : gmap string Q
}.

(** A config section as seen by [_init_profile]: its [pid_version] and
    [control] options (absent = [None]) and its numeric options. *)
Record section := mk_section {
  sec_version : option Z;
  sec_control : option string;
  sec_values : gmap string Q
}.

(** The manager's fields, and the autosave part of [configfile] it edits:
    section name to its (option, value) pairs. *)
Record manager := mk_manager {
  profiles : gmap string profile;
  incompatible_profiles : list string;
  storage : gmap string (list (string * string))
}.

Inductive result (A : Type) :=
| Ok (a : A)
| Error (msg : string).
Arguments Ok {A}.
Arguments Error {A}.

Section Manager.
Variable short_name : string.

(** [config_section.getint('pid_version', 1)] *)
Definition section_pid_version (sec : section) : Z :=
  match sec_version sec with Some v => v | None => 1%Z end.

(** Keys of [PID_PROFILE_OPTIONS] with a float type. *)
Definition pid_float_keys : list string :=
  ["pid_target"; "pid_tolerance"; "smooth_time"; "pid_kp"; "pid_ki"; "pid_kd"].

(** [_check_value_config] over the float options of [PID_PROFILE_OPTIONS],
    in order; [above=0.] for ['smooth_time'], the gains are mandatory. *)
Fixpoint check_pid_values (sec : section) (keys : list string)
    (acc : gmap string Q) : result (gmap string Q) :=
  match keys with
  | [] => Ok acc
  | key :: rest =>
      let can_be_none := negb (String.eqb key "pid_kp" || String.eqb key "pid_ki"
                                || String.eqb key "pid_kd") in
      match sec_values sec !! key with
      | None =>
          if can_be_none then check_pid_values sec rest acc
          else Error ("pid_profile: '" ++ key ++ "' has to be specified")
      | Some v =>
          if String.eqb key "smooth_time" && Qle_bool v 0
          then Error ("Option '" ++ key ++ "' must be above 0")
          else check_pid_values sec rest (<[key := v]> acc)
      end
  end.

(** [ProfileManager._init_profile]: [None] for an incompatible version. *)
Definition init_profile (m : manager) (sec : section) (pname : string)
  : result (manager * option profile) :=
  let version := section_pid_version sec in
  if negb (Z.eqb version PID_PROFILE_VERSION) then
    Ok (mk_manager (profiles m) (incompatible_profiles m ++ [pname])
                   (storage m), None)
  else
    match sec_control sec with
    | None => Error "pid_profile: 'control' has to be specified"
    | Some ctl =>
        let vals :=
          if String.eqb ctl "watermark" then
            let md := match sec_values sec !! "max_delta" with
                      | Some v => v | None => 2 end in
            if Qle_bool md 0 then Error "Option 'max_delta' must be above 0"
            else Ok ({[ "max_delta" := md ]} : gmap string Q)
          else if String.eqb ctl "pid" || String.eqb ctl "pid_v" then
            match check_pid_values sec pid_float_keys ∅ with
            | Ok vs => Ok (if String.eqb pname "default"
                           then delete "smooth_time" vs else vs)
            | Error e => Error e
            end
          else Error ("Unknown control type '" ++ ctl ++ "'") in
        match vals with
        | Error e => Error e
        | Ok vs =>
            let p := mk_profile ctl pname vs in
            Ok (mk_manager (<[pname := p]> (profiles m))
                           (incompatible_profiles m) (storage m), Some p)
        end
    end.

(** [ProfileManager.__init__]: the stored [pid_profile <heater> <name>]
    sections, given as (name, section) pairs. *)
Fixpoint init_stored (m : manager) (secs : list (string * section))
  : result manager :=
  match secs with
  | [] => Ok m
  | (n, sec) :: rest =>
      match init_profile m sec n with
      | Ok (m', _) => init_stored m' rest
      | Error e => Error e
      end
  end.

(** [Heater.__init__]: the manager is built from the stored sections, then
    [init_default_profile] reads the heater's own section as profile
    ['default'], which becomes the current control's profile.  A [None]
    there makes [lookup_control] fail. *)
Definition startup (stored : list (string * section)) (heater_sec : section)
    (autosave : gmap string (list (string * string)))
  : result (manager * profile) :=
  match init_stored (mk_manager ∅ [] autosave) stored with
  | Error e => Error e
  | Ok m =>
      match init_profile m heater_sec "default" with
      | Error e => Error e
      | Ok (m', None) => Error "TypeError: 'NoneType' object is not subscriptable"
      | Ok (m', Some p) => Ok (m', p)
      end
  end.

(** [ProfileManager._compute_section_name] *)
Definition compute_section_name (profile_name : string) : string :=
  if String.eqb profile_name "default" then short_name
  else ("pid_profile " ++ short_name ++ " " ++ profile_name)%string.

(** An integer parameter of a G-code command: absent, an integer, or a
    text that does not parse as an integer. *)
Inductive int_param :=
| Absent
| Given (z : Z)
| Unparsable (raw : string).

(** [_check_value_gcmd(name, 0, gcmd, int, True, minval=0, maxval=1)], that
    is [gcmd.get_int(name, 0, minval=0, maxval=1)]; the messages of
    [GCodeCommand.get] are abbreviated. *)
Definition get_int_01 (pname : string) (p : int_param) : result Z :=
  match p with
  | Absent => Ok 0%Z
  | Given z =>
      if Z.ltb z 0 then Error (pname ++ " must have minimum of 0")
      else if Z.ltb 1 z then Error (pname ++ " must have maximum of 1")
      else Ok z
  | Unparsable raw => Error ("unable to parse " ++ raw)
  end.

(** What [load_profile] does: nothing, load a profile (whether it is the
    DEFAULT one, and the LOAD_CLEAN and KEEP_TARGET values handed to
    [lookup_control] and [set_control]), or raise. *)
Inductive load_outcome :=
| AlreadyLoaded
| Loaded (p : profile) (defaulted : bool) (load_clean keep_target : Z)
| LoadError (msg : string).

(** [ProfileManager.load_profile]: [cur_name] is the current control's
    profile name; [load_clean], [keep_target] and [default] are the
    LOAD_CLEAN, KEEP_TARGET and DEFAULT parameters of the command (VERBOSE
    only selects messages). *)
Definition load_profile (m : manager) (cur_name profile_name : string)
    (load_clean keep_target : int_param) (default : option string)
  : load_outcome :=
  match get_int_01 "LOAD_CLEAN" load_clean with
  | Error e => LoadError e
  | Ok lc =>
      if String.eqb profile_name cur_name && Z.eqb lc 0 then AlreadyLoaded
      else
        match get_int_01 "KEEP_TARGET" keep_target with
        | Error e => LoadError e
        | Ok kt =>
            match profiles m !! profile_name with
            | Some p => Loaded p false lc kt
            | None =>
                match default with
                | None =>
                    LoadError ("pid_profile: Unknown profile [" ++ profile_name
                               ++ "] for heater [" ++ short_name ++ "].")
                | Some d =>
                    match profiles m !! d with
                    | Some p => Loaded p true lc kt
                    | None =>
                        LoadError ("pid_profile: Unknown default profile [" ++ d
                                   ++ "] for heater [" ++ short_name ++ "].")
                    end
                end
            end
        end
  end.

(** [ProfileManager.remove_profile]: the new manager and the message sent
    to the console. *)
Definition remove_profile (m : manager) (profile_name : string)
  : manager * string :=
  match profiles m !! profile_name with
  | Some _ =>
      let section_name := compute_section_name profile_name in
      (mk_manager (delete profile_name (profiles m)) (incompatible_profiles m)
                  (delete section_name (storage m)),
       ("Profile [" ++ profile_name ++ "] for heater [" ++ short_name
        ++ "] removed from storage for this session.")%string)
  | None =>
      (m, ("No profile named [" ++ profile_name ++ "] to remove")%string)
  end.

End Manager.
End ProfileManager.

(* ------------------------------------------------------------------ *)
(** * PrinterHeaters: the heater and sensor registry *)

Module PrinterHeaters.

(** Python's [str.isspace] on an ASCII character. *)
Definition py_isspace (c : Ascii.ascii) : bool :=
  let n := Ascii.nat_of_ascii c in
  ((9 <=? n) && (n <=? 13)) || ((28 <=? n) && (n <=? 32)).

(** The word being read and the words after it. *)
Fixpoint split_ws (s : string) : string * list string :=
  match s with
  | EmptyString => (EmptyString, [])
  | String c rest =>
      let '(w, ws) := split_ws rest in
      if py_isspace c
      then (EmptyString, match w with EmptyString => ws | _ => w :: ws end)
      else (String c w, ws)
  end.

(** [s.split()] *)
Definition py_split (s : string) : list string :=
  let '(w, ws) := split_ws s in
  match w with EmptyString => ws | _ => w :: ws end.

(** [lst[-1]]; [None] is an [IndexError]. *)
Definition py_last (l : list string) : option string :=
  match rev l with [] => None | x :: _ => Some x end.

(** The registry's fields.  A registered sensor object is identified by
    the config name of its section; a heater object by its configuration
    and state. *)
Record registry := mk_registry {
  sensor_factories : gset string;
  heaters : gmap string (Heater.config * Heater.state);
  gcode_id_to_sensor : gmap string string;
  available_heaters : list string;
  available_sensors : list string;
  available_monitors : list string;
  has_started : bool;
  have_load_sensors : bool
}.

(** A method returns, or raises after the mutations it already made. *)
Inductive outcome (A : Type) :=
| Returned (R : registry) (a : A)
| Raised (R : registry) (msg : string).
Arguments Returned {A}.
Arguments Raised {A}.

(** The registry after the call, whether it returned or raised. *)
Definition registry_of {A} (o : outcome A) : registry :=
  match o with Returned R _ => R | Raised R _ => R end.

Definition with_heaters (R : registry) h : registry :=
  mk_registry (sensor_factories R) h (gcode_id_to_sensor R)
    (available_heaters R) (available_sensors R) (available_monitors R)
    (has_started R) (have_load_sensors R).

Section Registry.
(** The sensor types whose factories loading [temperature_sensors.cfg]
    registers. *)
Variable default_sensor_types : gset string.

(** [PrinterHeaters.load_config] *)
Definition load_config (R : registry) : registry :=
  mk_registry (default_sensor_types ∪ sensor_factories R) (heaters R)
    (gcode_id_to_sensor R) (available_heaters R) (available_sensors R)
    (available_monitors R) (has_started R) true.

(** [PrinterHeaters.setup_sensor]: checks the section's [sensor_type]. *)
Definition setup_sensor (R : registry) (sensor_type : string) : outcome unit :=
  let R := if have_load_sensors R then R else load_config R in
  if decide (sensor_type ∈ sensor_factories R) then Returned R tt
  else Raised R ("Unknown temperature sensor '" ++ sensor_type ++ "'").

(** [PrinterHeaters.register_sensor]: [cfg_gcode_id] is the section's
    [gcode_id] option, [gcode_id] the argument. *)
Definition register_sensor (R : registry) (config_name : string)
    (cfg_gcode_id gcode_id : option string) : outcome unit :=
  let R1 := mk_registry (sensor_factories R) (heaters R)
              (gcode_id_to_sensor R) (available_heaters R)
              (available_sensors R ++ [config_name]) (available_monitors R)
              (has_started R) (have_load_sensors R) in
  match (match gcode_id with Some g => Some g | None => cfg_gcode_id end) with
  | None => Returned R1 tt
  | Some g =>
      if decide (is_Some (gcode_id_to_sensor R1 !! g))
      then Raised R1 ("G-Code sensor id " ++ g ++ " already registered")
      else Returned (mk_registry (sensor_factories R1) (heaters R1)
                       (<[g := config_name]> (gcode_id_to_sensor R1))
                       (available_heaters R1) (available_sensors R1)
                       (available_monitors R1) (has_started R1)
                       (have_load_sensors R1)) tt
  end.

(** [PrinterHeaters.setup_heater]: [heater] is the object [Heater(config,
    sensor)] builds. *)
Definition setup_heater (R : registry) (config_name sensor_type : string)
    (cfg_gcode_id gcode_id : option string)
    (heater : Heater.config * Heater.state)
  : outcome (Heater.config * Heater.state) :=
  match py_last (py_split config_name) with
  | None => Raised R "IndexError: list index out of range"
  | Some heater_name =>
      if decide (is_Some (heaters R !! heater_name))
      then Raised R ("Heater " ++ heater_name ++ " already registered")
      else
        match setup_sensor R sensor_type with
        | Raised R1 e => Raised R1 e
        | Returned R1 _ =>
            let R2 := with_heaters R1 (<[heater_name := heater]> (heaters R1)) in
            match register_sensor R2 config_name cfg_gcode_id gcode_id with
            | Raised R3 e => Raised R3 e
            | Returned R3 _ =>
                Returned (mk_registry (sensor_factories R3) (heaters R3)
                            (gcode_id_to_sensor R3)
                            (available_heaters R3 ++ [config_name])
                            (available_sensors R3) (available_monitors R3)
                            (has_started R3) (have_load_sensors R3)) heater
            end
        end
  end.
End Registry.

(** [PrinterHeaters.lookup_heater] *)
Definition lookup_heater (R : registry) (heater_name : string)
  : Heater.result (Heater.config * Heater.state) :=
  match heaters R !! heater_name with
  | Some h => Heater.Ok h
  | None => Heater.Error ("Unknown heater '" ++ heater_name ++ "'")
  end.

(** The loop of [turn_off_all_heaters] over the heaters still to visit. *)
Fixpoint turn_off_loop (R : registry)
    (hs : list (string * (Heater.config * Heater.state))) : outcome unit :=
  match hs with
  | [] => Returned R tt
  | (k, (c, s)) :: rest =>
      match Heater.set_temp c s 0 with
      | Heater.Ok s' => turn_off_loop (with_heaters R (<[k := (c, s')]> (heaters R))) rest
      | Heater.Error e => Raised R e
      end
  end.

(** [PrinterHeaters.turn_off_all_heaters]: [heater.set_temp(0.)] on every
    registered heater. *)
Definition turn_off_all_heaters (R : registry) : outcome unit :=
  turn_off_loop R (map_to_list (heaters R)).


End PrinterHeaters.

(* ------------------------------------------------------------------ *)
(** * Concrete configurations used by the examples *)

(** An extruder: [min_temp = 0], [max_temp = 300], [max_set_temp = 280],
    [max_power = 1], [pwm_delay = 1]. *)
Definition example_cfg : Heater.config := Heater.mk_config 0 300 280 1 1.

(** An idle heater at 20 degrees with target 200. *)
Definition example_heater : Heater.state :=
  Heater.mk_state 200 false 0 0 20 0 20 1 [].

Definition example_pid : PID.params := PID.mk_params 1 1 1 1 1 2.

Definition example_vpid : VelocityPID.params :=
  VelocityPID.mk_params 1 1 1 1 1.

Definition example_vpid_state : VelocityPID.state :=
  VelocityPID.mk_state [20; 20; 20] [0; 1; 2] 0 0 0.

(** A heater section with PID control and one stored profile [foo]
    written by an older schema version. *)
Definition example_pid_section : ProfileManager.section :=
  ProfileManager.mk_section None (Some "pid"%string)
    (<["pid_kp" := 22]> (<["pid_ki" := 1]> {["pid_kd" := 114]})).

Definition example_old_section : ProfileManager.section :=
  ProfileManager.mk_section (Some 0%Z) (Some "pid"%string)
    (<["pid_kp" := 20]> (<["pid_ki" := 1]> {["pid_kd" := 100]})).

Definition example_stored : list (string * ProfileManager.section) :=
  [("foo"%string, example_old_section)].

(** The manager and current profile after start-up with [example_stored]. *)
Definition example_startup : ProfileManager.manager * ProfileManager.profile :=
  match ProfileManager.startup example_stored example_pid_section ∅ with
  | ProfileManager.Ok r => r
  | ProfileManager.Error _ =>
      (ProfileManager.mk_manager ∅ [] ∅,
       ProfileManager.mk_profile "" "" ∅)
  end.

(** An empty registry whose sensor types are loaded. *)
Definition example_registry : PrinterHeaters.registry :=
  PrinterHeaters.mk_registry {["PT1000"%string]} ∅ ∅ [] [] [] false true.

(** The registry once an extruder with G-code id [T0] is set up. *)
Definition example_registry_t0 : PrinterHeaters.registry :=
  PrinterHeaters.mk_registry {["PT1000"%string]}
    {["extruder"%string := (example_cfg, example_heater)]}
    {["T0"%string := "extruder"%string]} ["extruder"%string]
    ["extruder"%string] [] false true.

(* ------------------------------------------------------------------ *)
(** * Predicates used in the statements *)

(** Two floats have the same sign (both positive, both negative or both
    zero). *)
Definition same_sign (a b : Q) : Prop :=
  (0 < a /\ 0 < b) \/ (a < 0 /\ b < 0) \/ (a == 0 /\ b == 0).

(** A duty value a control algorithm may hand to [set_pwm]. *)
Definition duty_in_range (max_power d : Q) : Prop :=
  0 <= d <= max_power /\ d <= 1.

(** The heater entry points that do not set a new target from a request
    ([set_control] may only reset it to [0]). *)
Definition idle_op (o : Heater.op) : bool :=
  match o with
  | Heater.OpSetTemp _ | Heater.OpAlterTarget _ => false
  | _ => true
  end.

(** Sample times strictly increasing, starting after [t0]. *)
Fixpoint increasing_from (t0 : Q) (samples : list (Q * Q * Q)) : Prop :=
  match samples with
  | [] => True
  | (rt, _, _) :: rest => t0 < rt /\ increasing_from rt rest
  end.

(** Every call of a sequence of velocity PID updates completes. *)
Fixpoint vpid_all_done (P : VelocityPID.params) (s : VelocityPID.state)
    (samples : list (Q * Q * Q)) : Prop :=
  match samples with
  | [] => True
  | (rt, t, tg) :: rest =>
      match VelocityPID.temperature_update P s rt t tg with
      | VelocityPID.Done s' _ => vpid_all_done P s' rest
      | VelocityPID.Raised _ => False
      end
  end.

(** The value of the most recent write to [mcu_pwm], [0] before any. *)
Definition last_written (s : Heater.state) : Q :=
  match Heater.mcu_writes s with [] => 0 | (_, v) :: _ => v end.

(** A heater after [set_temp(0.)]. *)
Definition heater_off (h : Heater.config * Heater.state)
  : Heater.config * Heater.state :=
  (h.1, Heater.with_target h.2 0).

(* ------------------------------------------------------------------ *)
(** * Comparisons and Python helpers *)

Module Facts.

Lemma Qlt_bool_iff a b : Qlt_bool a b = true <-> a < b.
Proof.
  unfold Qlt_bool. rewrite negb_true_iff. split; intro H.
  - apply Qnot_le_lt. intro H'. apply Qle_bool_iff in H'. congruence.
  - destruct (Qle_bool b a) eqn:E; [|reflexivity].
    apply Qle_bool_iff in E. exfalso. exact (Qlt_not_le _ _ H E).
Qed.

Lemma Qlt_bool_false a b : Qlt_bool a b = false -> b <= a.
Proof.
  unfold Qlt_bool. rewrite negb_false_iff. apply Qle_bool_iff.
Qed.

Lemma Qle_bool_false a b : Qle_bool a b = false -> b < a.
Proof.
  intro E. apply Qnot_le_lt. intro H. apply Qle_bool_iff in H. congruence.
Qed.

Lemma Qeq_bool_false a b : Qeq_bool a b = false -> ~ a == b.
Proof. apply Qeq_bool_neq. Qed.

Ltac no_if t :=
  lazymatch t with context [if _ then _ else _] => fail | _ => idtac end.

(** Split on an innermost float comparison of the goal. *)
Ltac destr_q :=
  match goal with
  | |- context [Qlt_bool ?a ?b] =>
      no_if a; no_if b;
      let E := fresh "E" in
      destruct (Qlt_bool a b) eqn:E;
      [apply Qlt_bool_iff in E | apply Qlt_bool_false in E]
  | |- context [Qle_bool ?a ?b] =>
      no_if a; no_if b;
      let E := fresh "E" in
      destruct (Qle_bool a b) eqn:E;
      [apply Qle_bool_iff in E | apply Qle_bool_false in E]
  | |- context [Qeq_bool ?a ?b] =>
      no_if a; no_if b;
      let E := fresh "E" in
      destruct (Qeq_bool a b) eqn:E;
      [apply Qeq_bool_iff in E | apply Qeq_bool_false in E]
  end.

Lemma clamp_range (mp o : Q) :
  0 <= mp -> 0 <= py_max 0 (py_min mp o) <= mp.
Proof. intros. unfold py_max, py_min. repeat destr_q; lra. Qed.

Lemma clamp_in (lo hi x : Q) :
  lo <= hi -> lo <= py_max lo (py_min hi x) <= hi.
Proof. intros. unfold py_max, py_min. repeat destr_q; lra. Qed.

Lemma clamp_id (lo hi x : Q) :
  lo <= x <= hi -> py_max lo (py_min hi x) == x.
Proof. intros. unfold py_max, py_min. repeat destr_q; lra. Qed.

Lemma py_sign_eqb a b :
  Z.eqb (py_sign a) (py_sign b) = true <-> same_sign a b.
Proof.
  unfold py_sign, same_sign.
  repeat destr_q; simpl; split; intro H; try lra; try discriminate;
    try reflexivity.
Qed.

Lemma py_truthy_false x : py_truthy x = false <-> x == 0.
Proof.
  unfold py_truthy. rewrite negb_false_iff. apply Qeq_bool_iff.
Qed.

Lemma py_truthy_true x : py_truthy x = true <-> ~ x == 0.
Proof.
  unfold py_truthy. rewrite negb_true_iff. split.
  - apply Qeq_bool_false.
  - intro H. destruct (Qeq_bool x 0) eqn:E; [|reflexivity].
    apply Qeq_bool_iff in E. contradiction.
Qed.

End Facts.
Import Facts.

(* ------------------------------------------------------------------ *)
(** * Control algorithms *)

(** C1: with a positive target, [ControlPID.temperature_update] stores the
    integral candidate [int_sum + ic] when the output
    [o = Kp*err + Ki*(int_sum + ic) + Kd*dc] equals its clamp to
    [[0, max_power]]; when it is saturated, it stores the candidate exactly
    when the signs of [o] and [ic] differ and keeps [int_sum] otherwise. *)
Theorem pid_anti_windup (P : PID.params) (s : PID.state)
    (temp target_temp : Q) (Htarget : 0 < target_temp) :
  let o := PID.o_of P s temp target_temp in
  let ic := PID.ic_of P s temp target_temp in
  let s' := fst (PID.temperature_update P s temp target_temp) in
  (o == py_max 0 (py_min (PID.heater_max_power P) o) ->
     PID.int_sum s' = PID.int_sum s + ic) /\
  (~ o == py_max 0 (py_min (PID.heater_max_power P) o) ->
     (~ same_sign o ic -> PID.int_sum s' = PID.int_sum s + ic) /\
     (same_sign o ic -> PID.int_sum s' = PID.int_sum s)).
Proof.
  unfold PID.temperature_update, PID.o_of, PID.ic_of, PID.dc_of, PID.err_of.
  cbv zeta. cbn [fst].
  rewrite (proj2 (Qlt_bool_iff _ _) Htarget).
  match goal with |- context [Qeq_bool ?x ?y] =>
    destruct (Qeq_bool x y) eqn:E end.
  - apply Qeq_bool_iff in E. split; [reflexivity|]. intro H. contradiction.
  - apply Qeq_bool_false in E. split; [intro H; contradiction|]. intros _.
    match goal with |- context [Z.eqb ?x ?y] =>
      destruct (Z.eqb x y) eqn:S end.
    + apply py_sign_eqb in S. split; intro H; [contradiction|reflexivity].
    + split; intro H; [reflexivity|].
      apply py_sign_eqb in H. simpl in S. congruence.
Qed.

(** C5: for a positive [max_delta] (the config requires [above=0.]),
    [ControlBangBang.temperature_update] turns heating on at
    [temp <= target - max_delta], off at [temp >= target + max_delta],
    leaves it unchanged strictly between, and commands [max_power] when
    heating and [0] otherwise. *)
Theorem bangbang_hysteresis (max_power max_delta : Q) (Hdelta : 0 < max_delta)
    (s : BangBang.state) (temp target_temp : Q) :
  let r := BangBang.temperature_update max_power max_delta s temp target_temp in
  (temp <= target_temp - max_delta -> BangBang.heating (fst r) = true) /\
  (target_temp + max_delta <= temp -> BangBang.heating (fst r) = false) /\
  (target_temp - max_delta < temp < target_temp + max_delta ->
     BangBang.heating (fst r) = BangBang.heating s) /\
  snd r = (if BangBang.heating (fst r) then max_power else 0).
Proof.
  unfold BangBang.temperature_update. cbv zeta. cbn [fst snd].
  destruct s as [h]; destruct h; cbn [BangBang.heating andb negb];
    repeat destr_q; cbn [BangBang.heating];
    repeat split; intros; try reflexivity; lra.
Qed.

(** C9: with [0 < max_power <= 1] (the config's bounds), every duty a
    control algorithm hands to [set_pwm] lies in [[0, max_power]]: the
    PID's saturated output, the velocity PID's clamped or idle [pwm], and
    the bang-bang's [0] or [max_power]. *)
Theorem control_duty_in_range (max_power : Q)
    (Hpower : 0 < max_power <= 1) :
  (forall (P : PID.params) s temp target_temp,
     PID.heater_max_power P = max_power ->
     duty_in_range max_power (snd (PID.temperature_update P s temp target_temp))) /\
  (forall (P : VelocityPID.params) s read_time temp target_temp s' d,
     VelocityPID.heater_max_power P = max_power ->
     VelocityPID.temperature_update P s read_time temp target_temp
       = VelocityPID.Done s' d ->
     duty_in_range max_power d) /\
  (forall max_delta s temp target_temp,
     duty_in_range max_power
       (snd (BangBang.temperature_update max_power max_delta s temp target_temp))).
Proof.
  unfold duty_in_range. split; [|split].
  - intros P s temp target_temp HP.
    unfold PID.temperature_update. cbv zeta. cbn [snd]. rewrite HP.
    pose proof (clamp_range max_power
                  (PID.Kp P * (target_temp - temp)
                   + PID.Ki P * (PID.int_sum s
                       + (PID.prev_err s + (target_temp - temp)) / 2 * PID.dt P)
                   + PID.Kd P * (((PID.smooth P - 1) * PID.prev_der s
                       + - (temp - PID.prev_temp s) / PID.dt P) / PID.smooth P))).
    lra.
  - intros P s rt temp target_temp s' d HP Hrun.
    unfold VelocityPID.temperature_update in Hrun. cbv zeta in Hrun.
    destruct (Qeq_bool _ 0); [discriminate|].
    injection Hrun as _ <-. rewrite HP.
    destruct (Qlt_bool 0 target_temp); [|lra].
    match goal with |- context [py_max 0 (py_min max_power ?o)] =>
      pose proof (clamp_range max_power o) end.
    lra.
  - intros max_delta s temp target_temp.
    unfold BangBang.temperature_update. cbv zeta. cbn [snd].
    match goal with |- context [if ?h then max_power else 0] =>
      destruct h end; lra.
Qed.

(* ------------------------------------------------------------------ *)
(** * Heater target and output *)

(** C7: [set_temp] raises for a nonzero [degrees] outside
    [[min_temp, max_set_temp]] and the heater keeps its target; for
    [degrees] in that range or [0] it stores [degrees] as the target,
    which [get_temp] then reports. *)
Theorem set_temp_range (cfg : Heater.config) (s : Heater.state) (degrees : Q) :
  (~ degrees == 0 ->
   (degrees < Heater.min_temp cfg \/ Heater.max_set_temp cfg < degrees) ->
     (exists msg, Heater.set_temp cfg s degrees = Heater.Error msg) /\
     Heater.step cfg s (Heater.OpSetTemp degrees) = s) /\
  ((Heater.min_temp cfg <= degrees <= Heater.max_set_temp cfg \/ degrees == 0) ->
     exists s', Heater.set_temp cfg s degrees = Heater.Ok s' /\
       Heater.target_temp s' = degrees /\
       Heater.step cfg s (Heater.OpSetTemp degrees) = s' /\
       forall est_print_time, snd (Heater.get_temp s' est_print_time) = degrees).
Proof.
  unfold Heater.step, Heater.set_temp. split.
  - intros Hnz Hout.
    rewrite (proj2 (py_truthy_true _) Hnz). cbn [andb].
    destruct Hout as [Hlt|Hlt].
    + rewrite (proj2 (Qlt_bool_iff _ _) Hlt). cbn [orb]. eauto.
    + rewrite (proj2 (Qlt_bool_iff _ _) Hlt), orb_true_r. eauto.
  - intro Hin.
    assert (Hok : andb (py_truthy degrees)
                    (orb (Qlt_bool degrees (Heater.min_temp cfg))
                         (Qlt_bool (Heater.max_set_temp cfg) degrees)) = false).
    { destruct Hin as [Hin|Hz].
      - destruct (py_truthy degrees); [|reflexivity]. cbn [andb].
        repeat destr_q; reflexivity || lra.
      - rewrite (proj2 (py_truthy_false _) Hz). reflexivity. }
    rewrite Hok. eexists; split; [reflexivity|].
    split; [reflexivity|]. split; [reflexivity|].
    intro e. unfold Heater.get_temp. cbv zeta. destr_q; reflexivity.
Qed.

(** C10: [alter_target] never raises; a nonzero request is clamped into
    [[min_temp, max_temp]] (and kept when already inside) before it is
    stored, and a zero request is stored as it is. *)
Theorem alter_target_clamps (cfg : Heater.config) (s : Heater.state) (t : Q)
    (Hcfg : Heater.min_temp cfg < Heater.max_temp cfg) :
  let s' := Heater.alter_target cfg s t in
  (~ t == 0 ->
     Heater.target_temp s'
       = py_max (Heater.min_temp cfg) (py_min (Heater.max_temp cfg) t) /\
     Heater.min_temp cfg <= Heater.target_temp s' <= Heater.max_temp cfg /\
     (Heater.min_temp cfg <= t <= Heater.max_temp cfg ->
        Heater.target_temp s' == t)) /\
  (t == 0 -> Heater.target_temp s' = t).
Proof.
  unfold Heater.alter_target. cbv zeta. split.
  - intro Hnz. rewrite (proj2 (py_truthy_true _) Hnz). cbn.
    split; [reflexivity|]. split.
    + apply clamp_in. lra.
    + apply clamp_id.
  - intro Hz. rewrite (proj2 (py_truthy_false _) Hz). reflexivity.
Qed.

Lemma step_keeps_shutdown (cfg : Heater.config) (s : Heater.state) (o : Heater.op) :
  Heater.is_shutdown s = true -> Heater.is_shutdown (Heater.step cfg s o) = true.
Proof.
  intro H. destruct o; cbn [Heater.step].
  - unfold Heater.set_pwm. destruct (andb _ _); exact H.
  - unfold Heater.temperature_callback, Heater.set_pwm. cbv zeta.
    destruct (andb _ _); exact H.
  - unfold Heater.set_temp. destruct (andb _ _); exact H.
  - exact H.
  - unfold Heater.set_control. destruct keep_target; exact H.
  - exact H.
  - reflexivity.
Qed.

Lemma run_keeps_shutdown (cfg : Heater.config) (ops : list Heater.op) :
  forall s, Heater.is_shutdown s = true ->
  Heater.is_shutdown (Heater.run cfg s ops) = true.
Proof.
  unfold Heater.run. induction ops as [|o ops IH]; intros s H; [exact H|].
  cbn [fold_left]. apply IH. apply step_keeps_shutdown. exact H.
Qed.

(** C8: once [is_shutdown] is set, no entry point of the heater clears it,
    and every later [set_pwm] commands [0] whatever value it is given: it
    either writes nothing or writes [0]. *)
Theorem shutdown_forces_zero (cfg : Heater.config) (s : Heater.state)
    (Hdown : Heater.is_shutdown s = true)
    (ops : list Heater.op) (read_time value : Q) :
  let s' := Heater.run cfg s ops in
  Heater.is_shutdown s' = true /\
  (Heater.set_pwm cfg s' read_time value = s' \/
   (Heater.mcu_writes (Heater.set_pwm cfg s' read_time value)
      = (read_time + Heater.pwm_delay cfg, 0) :: Heater.mcu_writes s' /\
    Heater.last_pwm_value (Heater.set_pwm cfg s' read_time value) = 0)).
Proof.
  cbv zeta. pose proof (run_keeps_shutdown cfg ops s Hdown) as H.
  split; [exact H|].
  unfold Heater.set_pwm. rewrite H, orb_true_r.
  destruct (andb _ _); [left; reflexivity|right; split; reflexivity].
Qed.

Lemma Qabs_py_Qabs (x : Q) : Qabs_py x == Qabs x.
Proof.
  unfold Qabs_py. destr_q.
  - rewrite Qabs_neg by lra. reflexivity.
  - rewrite Qabs_pos by lra. reflexivity.
Qed.

Lemma Qabs_py_lt_iff (x c : Q) : Qlt_bool (Qabs_py x) c = true <-> Qabs x < c.
Proof. rewrite Qlt_bool_iff, Qabs_py_Qabs. reflexivity. Qed.

(** C2 (amended): [set_pwm] first replaces the value by [0] when the target
    is not positive or the heater is shut down; it then writes nothing
    exactly when this value is within [0.05] of [last_pwm_value] and either
    the re-issue time [next_pwm_time] is not reached or [last_pwm_value] is
    [0]; otherwise it issues one write and moves [next_pwm_time] to
    [read_time + pwm_delay + 0.75 * MAX_HEAT_TIME].  Hence after a call
    that writes, a call before that re-issue time with a value within
    [0.05] of the previous one writes nothing: the pair writes once. *)
Theorem set_pwm_suppression (cfg : Heater.config) (s : Heater.state)
    (read_time value : Q) :
  let v := if orb (Qle_bool (Heater.target_temp s) 0) (Heater.is_shutdown s)
           then 0 else value in
  let suppress := Qabs (v - Heater.last_pwm_value s) < 5 # 100 /\
                  (read_time < Heater.next_pwm_time s \/
                   Heater.last_pwm_value s == 0) in
  let s1 := Heater.set_pwm cfg s read_time value in
  (suppress -> s1 = s) /\
  (~ suppress ->
     Heater.mcu_writes s1 = (read_time + Heater.pwm_delay cfg, v) :: Heater.mcu_writes s /\
     Heater.last_pwm_value s1 = v /\
     Heater.next_pwm_time s1
       = read_time + Heater.pwm_delay cfg + (75 # 100) * MAX_HEAT_TIME /\
     Heater.target_temp s1 = Heater.target_temp s /\
     Heater.is_shutdown s1 = Heater.is_shutdown s) /\
  (forall read_time2 value2,
     Heater.mcu_writes s1 <> Heater.mcu_writes s ->
     read_time2 < Heater.next_pwm_time s1 ->
     Qabs (value2 - value) < 5 # 100 ->
     Heater.set_pwm cfg s1 read_time2 value2 = s1).
Proof.
  cbv zeta. unfold Heater.set_pwm at 1 2 3 4 5 6 7.
  set (v := if orb (Qle_bool (Heater.target_temp s) 0) (Heater.is_shutdown s)
            then 0 else value).
  destruct (andb (orb (Qlt_bool read_time (Heater.next_pwm_time s))
                      (negb (py_truthy (Heater.last_pwm_value s))))
                 (Qlt_bool (Qabs_py (v - Heater.last_pwm_value s)) (5 # 100)))
    eqn:C.
  - apply andb_true_iff in C as [C1 C2].
    apply Qabs_py_lt_iff in C2.
    split; [reflexivity|]. split.
    + intro Hn. exfalso. apply Hn. split; [exact C2|].
      apply orb_true_iff in C1 as [C1|C1].
      * left. apply Qlt_bool_iff. exact C1.
      * right. apply py_truthy_false. apply negb_true_iff. exact C1.
    + intros rt2 v2 Hw. contradiction.
  - split.
    + intros [C2 C1]. exfalso.
      apply andb_false_iff in C as [C|C].
      * apply orb_false_iff in C as [Ca Cb].
        apply Qlt_bool_false in Ca. apply negb_false_iff in Cb.
        apply py_truthy_true in Cb. destruct C1; [lra|contradiction].
      * apply Qabs_py_lt_iff in C2. congruence.
    + split; [repeat split; reflexivity|].
      intros rt2 v2 _ Hrt Hv.
      assert (Hs1 : Heater.set_pwm cfg s read_time value =
        Heater.mk_state (Heater.target_temp s) (Heater.is_shutdown s)
          (read_time + Heater.pwm_delay cfg + (75 # 100) * MAX_HEAT_TIME) v
          (Heater.last_temp s) (Heater.last_temp_time s)
          (Heater.smoothed_temp s) (Heater.inv_smooth_time s)
          ((read_time + Heater.pwm_delay cfg, v) :: Heater.mcu_writes s)).
      { unfold Heater.set_pwm. fold v. rewrite C. reflexivity. }
      rewrite Hs1 in *. cbn [Heater.next_pwm_time] in Hrt.
      unfold Heater.set_pwm. cbn [Heater.target_temp Heater.is_shutdown
        Heater.next_pwm_time Heater.last_pwm_value].
      rewrite (proj2 (Qlt_bool_iff _ _) Hrt). cbn [orb andb].
      assert (Hd : Qlt_bool (Qabs_py
                 ((if orb (Qle_bool (Heater.target_temp s) 0) (Heater.is_shutdown s)
                   then 0 else v2) - v)) (5 # 100) = true).
      { apply Qabs_py_lt_iff. subst v.
        destruct (orb (Qle_bool (Heater.target_temp s) 0) (Heater.is_shutdown s)).
        - vm_compute. reflexivity.
        - exact Hv. }
      rewrite Hd. reflexivity.
Qed.

(** C2 counterexample: with [last_pwm_value = 0] the write of a small
    value is suppressed although the re-issue time has passed, so
    suppression is not "difference below 0.05 and re-issue time not
    reached". *)
Lemma set_pwm_suppression_counterexample :
  let cfg := Heater.mk_config 0 300 280 1 1 in
  let s := Heater.mk_state 200 false 0 0 20 0 20 1 [] in
  Heater.set_pwm cfg s 10 (1 # 100) = s /\
  ~ (Heater.set_pwm cfg s 10 (1 # 100) = s <->
     (Qabs ((1 # 100) - Heater.last_pwm_value s) < 5 # 100 /\
      10 < Heater.next_pwm_time s)).
Proof.
  cbv zeta. split; [reflexivity|].
  intros [H _]. destruct (H eq_refl) as [_ Hlt].
  vm_compute in Hlt. discriminate.
Qed.

(** C6: with a target [<= 0], a completed
    [ControlVelocityPID.temperature_update] sets [pwm] to [0] and hands
    [0] to [set_pwm] (the call completes whenever the reading time differs
    from the previous one; an equal time raises [ZeroDivisionError]).
    Hence once [pwm] is [0] it stays [0] over any samples whose target is
    [<= 0], whatever the temperatures, raised calls included. *)
Theorem vpid_idle_pins_zero (P : VelocityPID.params) :
  (forall s read_time temp target_temp,
     target_temp <= 0 ->
     length (VelocityPID.times s) = 3%nat ->
     ~ read_time == VelocityPID.last1 (VelocityPID.times s) ->
     exists s', VelocityPID.temperature_update P s read_time temp target_temp
                  = VelocityPID.Done s' 0 /\ VelocityPID.pwm s' = 0) /\
  (forall s samples,
     VelocityPID.pwm s = 0 ->
     Forall (fun smp : Q * Q * Q => snd smp <= 0) samples ->
     VelocityPID.pwm (VelocityPID.run P s samples) = 0).
Proof.
  split.
  - intros s rt temp tg Htg Hlen Hrt.
    destruct s as [temps times d1 d2 pwm]. cbn in Hlen, Hrt.
    destruct times as [|a [|b [|c [|x times]]]]; try discriminate.
    unfold VelocityPID.last1 in Hrt. cbn in Hrt.
    unfold VelocityPID.temperature_update. cbv zeta.
    cbn [VelocityPID.times VelocityPID.rotate tl app VelocityPID.last1
         VelocityPID.last2 length nth Nat.sub].
    destruct (Qeq_bool (rt - c) 0) eqn:E.
    + apply Qeq_bool_iff in E. exfalso. apply Hrt. lra.
    + destruct (Qlt_bool 0 tg) eqn:T.
      * apply Qlt_bool_iff in T. lra.
      * eexists. split; reflexivity.
  - intros s samples. revert s.
    induction samples as [|[[rt t] tg] rest IH]; intros s Hp Hall;
      [exact Hp|].
    inversion Hall as [|? ? Htg Hrest]; subst. cbn [snd] in Htg.
    cbn [VelocityPID.run]. apply IH; [|exact Hrest].
    unfold VelocityPID.temperature_update. cbv zeta.
    destruct (Qeq_bool _ 0); [exact Hp|].
    cbn [VelocityPID.outcome_state VelocityPID.pwm].
    destruct (Qlt_bool 0 tg) eqn:T; [|reflexivity].
    apply Qlt_bool_iff in T. lra.
Qed.

(* ------------------------------------------------------------------ *)
(** * Profile manager *)

Module ProfileFacts.
Import ProfileManager.









End ProfileFacts.





(* ------------------------------------------------------------------ *)
(** * Instances of the theorems on concrete inputs *)

(** C1 at a saturated output whose integral step has the same sign: the
    accumulator is kept. *)
Lemma pid_anti_windup_witness :
  0 < 200 /\
  PID.int_sum (fst (PID.temperature_update example_pid
                      (PID.mk_state 20 0 0 0) 20 200))
  = PID.int_sum (PID.mk_state 20 0 0 0).
Proof.
  split; [lra|].
  pose proof (pid_anti_windup example_pid (PID.mk_state 20 0 0 0) 20 200
                ltac:(lra)) as H.
  cbv zeta in H. destruct H as [_ H].
  apply H.
  - vm_compute. discriminate.
  - left. split; vm_compute; reflexivity.
Defined.

(** C5 at target 200, [max_delta] 5: heating turns on at 195. *)
Lemma bangbang_hysteresis_witness :
  0 < 5 /\
  BangBang.heating (fst (BangBang.temperature_update 1 5
                           (BangBang.mk_state false) 195 200)) = true.
Proof.
  split; [lra|].
  pose proof (bangbang_hysteresis 1 5 ltac:(lra) (BangBang.mk_state false)
                195 200) as H.
  cbv zeta in H. destruct H as [H _]. apply H. lra.
Defined.

(** C9 with [max_power = 1], on the PID. *)
Lemma control_duty_in_range_witness :
  0 < 1 <= 1 /\
  duty_in_range 1 (snd (PID.temperature_update example_pid
                          (PID.mk_state 20 0 0 0) 20 200)).
Proof.
  split; [lra|].
  destruct (control_duty_in_range 1 ltac:(lra)) as [H _].
  apply H. reflexivity.
Defined.

(** C7: 500 is rejected and the target stays 200; 250 is stored. *)
Lemma set_temp_range_witness :
  (~ 500 == 0 /\ Heater.max_set_temp example_cfg < 500 /\
   Heater.step example_cfg example_heater (Heater.OpSetTemp 500) = example_heater) /\
  (Heater.min_temp example_cfg <= 250 <= Heater.max_set_temp example_cfg /\
   exists s', Heater.set_temp example_cfg example_heater 250 = Heater.Ok s' /\
              Heater.target_temp s' = 250).
Proof.
  split.
  - split; [vm_compute; discriminate|]. split; [vm_compute; reflexivity|].
    destruct (set_temp_range example_cfg example_heater 500) as [H _].
    apply H; [vm_compute; discriminate|right; vm_compute; reflexivity].
  - split; [vm_compute; split; discriminate|].
    destruct (set_temp_range example_cfg example_heater 250) as [_ H].
    destruct H as [s' [H1 [H2 _]]];
      [left; vm_compute; split; discriminate|].
    exists s'. split; assumption.
Defined.

(** C10: a request of 500 becomes 300. *)
Lemma alter_target_clamps_witness :
  Heater.min_temp example_cfg < Heater.max_temp example_cfg /\
  Heater.min_temp example_cfg
    <= Heater.target_temp (Heater.alter_target example_cfg example_heater 500)
    <= Heater.max_temp example_cfg.
Proof.
  split; [vm_compute; reflexivity|].
  pose proof (alter_target_clamps example_cfg example_heater 500
                ltac:(vm_compute; reflexivity)) as H.
  cbv zeta in H. destruct H as [H _].
  apply H. vm_compute. discriminate.
Defined.

(** C8: after a shutdown, a later [set_temp] and a full-power request still
    command nothing but [0]. *)
Lemma shutdown_forces_zero_witness :
  let s := Heater.handle_shutdown example_heater in
  let s' := Heater.run example_cfg s [Heater.OpSetTemp 250] in
  Heater.is_shutdown s = true /\ Heater.is_shutdown s' = true /\
  Heater.set_pwm example_cfg s' 10 1 = s'.
Proof.
  cbv zeta. split; [reflexivity|].
  pose proof (shutdown_forces_zero example_cfg
                (Heater.handle_shutdown example_heater) eq_refl
                [Heater.OpSetTemp 250] 10 1) as H.
  cbv zeta in H. destruct H as [H1 [H2|[H2 _]]].
  - split; assumption.
  - exfalso. revert H2. vm_compute. discriminate.
Defined.

(** C2: a write of 0.5 at time 10, then a request of 0.52 at time 11 is
    suppressed. *)
Lemma set_pwm_suppression_witness :
  let s1 := Heater.set_pwm example_cfg example_heater 10 (1 # 2) in
  Heater.mcu_writes s1 <> Heater.mcu_writes example_heater /\
  11 < Heater.next_pwm_time s1 /\
  Qabs ((52 # 100) - (1 # 2)) < 5 # 100 /\
  Heater.set_pwm example_cfg s1 11 (52 # 100) = s1.
Proof.
  cbv zeta.
  assert (Hw : Heater.mcu_writes (Heater.set_pwm example_cfg example_heater 10 (1 # 2))
               <> Heater.mcu_writes example_heater)
    by (vm_compute; discriminate).
  assert (Ht : 11 < Heater.next_pwm_time
                      (Heater.set_pwm example_cfg example_heater 10 (1 # 2)))
    by (vm_compute; reflexivity).
  assert (Hv : Qabs ((52 # 100) - (1 # 2)) < 5 # 100)
    by (vm_compute; reflexivity).
  split; [exact Hw|]. split; [exact Ht|]. split; [exact Hv|].
  pose proof (set_pwm_suppression example_cfg example_heater 10 (1 # 2)) as H.
  cbv zeta in H. destruct H as [_ [_ H]].
  exact (H 11 (52 # 100) Hw Ht Hv).
Defined.

(** C6: an idle velocity PID fed two samples with target 0. *)
Lemma vpid_idle_pins_zero_witness :
  VelocityPID.pwm example_vpid_state = 0 /\
  VelocityPID.pwm (VelocityPID.run example_vpid example_vpid_state
                     [(3, 150, 0); (4, 30, 0)]) = 0 /\
  exists s', VelocityPID.temperature_update example_vpid example_vpid_state 3 150 0
             = VelocityPID.Done s' 0.
Proof.
  destruct (vpid_idle_pins_zero example_vpid) as [H1 H2].
  split; [reflexivity|]. split.
  - apply H2; [reflexivity|].
    repeat constructor; cbn [snd]; lra.
  - destruct (H1 example_vpid_state 3 150 0) as [s' [Hs _]];
      [lra|reflexivity|vm_compute; discriminate|].
    exists s'. exact Hs.
Defined.



(* ------------------------------------------------------------------ *)
(** * Further properties of the code *)

Lemma set_pwm_keeps (cfg : Heater.config) (s : Heater.state) (rt v : Q) :
  let s' := Heater.set_pwm cfg s rt v in
  Heater.target_temp s' = Heater.target_temp s /\
  Heater.is_shutdown s' = Heater.is_shutdown s /\
  Heater.last_temp s' = Heater.last_temp s /\
  Heater.last_temp_time s' = Heater.last_temp_time s /\
  Heater.smoothed_temp s' = Heater.smoothed_temp s /\
  Heater.inv_smooth_time s' = Heater.inv_smooth_time s.
Proof.
  cbv zeta. unfold Heater.set_pwm. destruct (andb _ _); repeat split.
Qed.

(** [set_pwm] with a non-positive target writes at most one [0]. *)
Lemma set_pwm_idle (cfg : Heater.config) (s : Heater.state) (rt v : Q) :
  Heater.target_temp s <= 0 ->
  exists new, Heater.mcu_writes (Heater.set_pwm cfg s rt v)
              = new ++ Heater.mcu_writes s /\
              Forall (fun w : Q * Q => snd w = 0) new.
Proof.
  intro H. unfold Heater.set_pwm.
  rewrite (proj2 (Qle_bool_iff _ _) H). cbn [orb].
  destruct (andb _ _).
  - exists []. split; [reflexivity|constructor].
  - eexists [_]. split; [reflexivity|]. repeat constructor.
Qed.

Lemma idle_step (cfg : Heater.config) (s : Heater.state) (o : Heater.op) :
  Heater.target_temp s <= 0 -> idle_op o = true ->
  Heater.target_temp (Heater.step cfg s o) <= 0 /\
  exists new, Heater.mcu_writes (Heater.step cfg s o) = new ++ Heater.mcu_writes s /\
              Forall (fun w : Q * Q => snd w = 0) new.
Proof.
  intros Ht Hi. destruct o; cbn [idle_op] in Hi; try discriminate;
    cbn [Heater.step].
  - destruct (set_pwm_keeps cfg s read_time value) as [E _].
    rewrite E. split; [exact Ht|]. apply set_pwm_idle. exact Ht.
  - unfold Heater.temperature_callback. cbv zeta. cbn.
    match goal with |- context [Heater.set_pwm cfg ?s1 read_time duty] =>
      destruct (set_pwm_keeps cfg s1 read_time duty) as [E _];
      destruct (set_pwm_idle cfg s1 read_time duty Ht) as [new [Hn Hf]] end.
    rewrite E. split; [exact Ht|]. exists new. split; [exact Hn|exact Hf].
  - unfold Heater.set_control. destruct keep_target; cbn.
    + split; [exact Ht|]. exists []. split; [reflexivity|constructor].
    + split; [lra|]. exists []. split; [reflexivity|constructor].
  - split; [exact Ht|]. exists []. split; [reflexivity|constructor].
  - split; [exact Ht|]. exists []. split; [reflexivity|constructor].
Qed.

Lemma idle_run (cfg : Heater.config) (ops : list Heater.op) :
  forall s, Heater.target_temp s <= 0 -> forallb idle_op ops = true ->
  Heater.target_temp (Heater.run cfg s ops) <= 0 /\
  exists new, Heater.mcu_writes (Heater.run cfg s ops) = new ++ Heater.mcu_writes s /\
              Forall (fun w : Q * Q => snd w = 0) new.
Proof.
  unfold Heater.run. induction ops as [|o ops IH]; intros s Ht Hall.
  - split; [exact Ht|]. exists []. split; [reflexivity|constructor].
  - cbn [forallb] in Hall. apply andb_prop in Hall as [Ho Hall].
    destruct (idle_step cfg s o Ht Ho) as [Ht1 [n1 [Hn1 Hf1]]].
    cbn [fold_left].
    destruct (IH _ Ht1 Hall) as [Ht2 [n2 [Hn2 Hf2]]].
    split; [exact Ht2|]. exists (n2 ++ n1). split.
    + rewrite Hn2, Hn1. apply app_assoc.
    + apply Forall_app. split; assumption.
Qed.

(** X1: while the target is not positive, the entry points that do not
    request a new target ([set_pwm], [temperature_callback], [set_control],
    [set_inv_smooth_time], shutdown) keep it so, and every write they add to
    the MCU commands [0]. *)
Theorem idle_heater_writes_zero (cfg : Heater.config) (ops : list Heater.op) :
  forall s, Heater.target_temp s <= 0 -> forallb idle_op ops = true ->
  Heater.target_temp (Heater.run cfg s ops) <= 0 /\
  exists new, Heater.mcu_writes (Heater.run cfg s ops) = new ++ Heater.mcu_writes s /\
              Forall (fun w : Q * Q => snd w = 0) new.
Proof.
  exact (idle_run cfg ops).
Qed.

Lemma step_last_written (cfg : Heater.config) (s : Heater.state) (o : Heater.op) :
  Heater.last_pwm_value s = last_written s ->
  Heater.last_pwm_value (Heater.step cfg s o) = last_written (Heater.step cfg s o).
Proof.
  unfold last_written. intro H. destruct o; cbn [Heater.step].
  - unfold Heater.set_pwm. destruct (andb _ _); [exact H|reflexivity].
  - unfold Heater.temperature_callback, Heater.set_pwm. cbv zeta. cbn.
    destruct (andb _ _); cbn; [exact H|reflexivity].
  - unfold Heater.set_temp. destruct (andb _ _); exact H.
  - exact H.
  - unfold Heater.set_control. destruct keep_target; exact H.
  - exact H.
  - exact H.
Qed.

(** X2: from a freshly built heater, after any calls, [last_pwm_value] is
    the value of the most recent write to [mcu_pwm] ([0] before any write):
    the power reported by [get_status] and [stats] is the one last sent. *)
Theorem last_pwm_value_is_last_write (cfg : Heater.config) (inv : Q)
    (ops : list Heater.op) :
  let s := Heater.run cfg (Heater.init_state inv) ops in
  Heater.last_pwm_value s
  = match Heater.mcu_writes s with [] => 0 | (_, v) :: _ => v end.
Proof.
  cbv zeta. fold (last_written (Heater.run cfg (Heater.init_state inv) ops)).
  unfold Heater.run.
  assert (H0 : Heater.last_pwm_value (Heater.init_state inv)
               = last_written (Heater.init_state inv)) by reflexivity.
  revert H0. generalize (Heater.init_state inv).
  induction ops as [|o ops IH]; intros s H; [exact H|].
  cbn [fold_left]. apply IH. apply step_last_written. exact H.
Qed.

(** X3: [temperature_callback] records the reading; for a reading not
    older than the previous one and a non-negative [inv_smooth_time], the
    new [smoothed_temp] lies between the old one and the reading, and
    equals the reading once [time_diff * inv_smooth_time >= 1]. *)
Theorem temperature_callback_smoothing (cfg : Heater.config) (s : Heater.state)
    (read_time temp duty : Q)
    (Htime : Heater.last_temp_time s <= read_time)
    (Hinv : 0 <= Heater.inv_smooth_time s) :
  let s' := Heater.temperature_callback cfg s read_time temp duty in
  Heater.last_temp s' = temp /\ Heater.last_temp_time s' = read_time /\
  (Heater.smoothed_temp s <= temp ->
     Heater.smoothed_temp s <= Heater.smoothed_temp s' <= temp) /\
  (temp <= Heater.smoothed_temp s ->
     temp <= Heater.smoothed_temp s' <= Heater.smoothed_temp s) /\
  (1 <= (read_time - Heater.last_temp_time s) * Heater.inv_smooth_time s ->
     Heater.smoothed_temp s' == temp).
Proof.
  cbv zeta. unfold Heater.temperature_callback. cbv zeta.
  match goal with |- context [Heater.set_pwm cfg ?s1 read_time duty] =>
    destruct (set_pwm_keeps cfg s1 read_time duty) as [_ [_ [E3 [E4 [E5 E6]]]]];
    generalize dependent (Heater.set_pwm cfg s1 read_time duty) end.
  intros s2 E3 E4 E5 E6. cbn [Heater.last_temp Heater.last_temp_time
    Heater.smoothed_temp Heater.inv_smooth_time] in *.
  rewrite E3, E4, E5, E6.
  set (x := (read_time - Heater.last_temp_time s) * Heater.inv_smooth_time s).
  assert (Hx : 0 <= x) by (apply Qmult_le_0_compat; lra).
  assert (Ha : 0 <= py_min x 1 <= 1 /\ (1 <= x -> py_min x 1 == 1)).
  { unfold py_min. destr_q; split; try split; intros; lra. }
  destruct Ha as [[Ha0 Ha1] Ha2].
  set (a := py_min x 1) in *.
  set (o := Heater.smoothed_temp s).
  split; [reflexivity|]. split; [reflexivity|].
  split; [|split].
  - intro Hle. split; nra.
  - intro Hle. split; nra.
  - intro H1. rewrite (Ha2 H1). ring.
Qed.

(** X5: a nonzero temperature above [max_set_temp] but not above
    [max_temp] is refused by [set_temp] and stored as it is by
    [alter_target]: [alter_target] clamps to [max_temp], not to
    [max_set_temp]. *)
Theorem alter_target_passes_max_set_temp (cfg : Heater.config) (s : Heater.state)
    (t : Q) (Hnz : ~ t == 0)
    (Hcfg : Heater.min_temp cfg <= Heater.max_set_temp cfg)
    (Ht : Heater.max_set_temp cfg < t <= Heater.max_temp cfg) :
  (exists msg, Heater.set_temp cfg s t = Heater.Error msg) /\
  Heater.target_temp (Heater.alter_target cfg s t) == t.
Proof.
  split.
  - unfold Heater.set_temp.
    rewrite (proj2 (py_truthy_true _) Hnz),
            (proj2 (Qlt_bool_iff _ _) (proj1 Ht)), orb_true_r. eauto.
  - unfold Heater.alter_target. rewrite (proj2 (py_truthy_true _) Hnz). cbn.
    apply clamp_id. lra.
Qed.

(** X6: a [ControlPID] update with a non-positive target resets
    [prev_err] and [int_sum] to [0] and stores the reading; the next update
    then starts its integral from [0]: [int_sum] becomes [0] or the single
    trapezoid [((0 + err) / 2) * dt]. *)
Theorem pid_idle_resets (P : PID.params) (s : PID.state) (temp target_temp : Q)
    (Hidle : target_temp <= 0) :
  let s1 := fst (PID.temperature_update P s temp target_temp) in
  PID.prev_temp s1 = temp /\ PID.prev_err s1 = 0 /\ PID.int_sum s1 = 0 /\
  forall temp2 target2,
    let i2 := PID.int_sum (fst (PID.temperature_update P s1 temp2 target2)) in
    i2 = 0 \/ i2 = 0 + ((0 + (target2 - temp2)) / 2) * PID.dt P.
Proof.
  cbv zeta.
  assert (Hs1 : exists dc, fst (PID.temperature_update P s temp target_temp)
                           = PID.mk_state temp 0 dc 0).
  { unfold PID.temperature_update. cbv zeta.
    destruct (Qlt_bool 0 target_temp) eqn:E.
    - apply Qlt_bool_iff in E. lra.
    - eexists. reflexivity. }
  destruct Hs1 as [dc ->]. cbn.
  split; [reflexivity|]. split; [reflexivity|]. split; [reflexivity|].
  intros temp2 target2. unfold PID.temperature_update. cbv zeta. cbn.
  destruct (Qlt_bool 0 target2); [|left; reflexivity].
  destruct (Qeq_bool _ _); [right; reflexivity|].
  destruct (negb _); cbn; [right|left]; reflexivity.
Qed.

Lemma rotate_length (l : list Q) (x : Q) :
  length l <> 0%nat -> length (VelocityPID.rotate l x) = length l.
Proof.
  unfold VelocityPID.rotate. destruct l as [|y l]; [contradiction|].
  intros _. cbn. rewrite length_app. cbn. lia.
Qed.

Lemma vpid_step_inv (P : VelocityPID.params) (s : VelocityPID.state)
    (rt temp tg : Q) :
  0 <= VelocityPID.heater_max_power P ->
  length (VelocityPID.temps s) = 3%nat -> length (VelocityPID.times s) = 3%nat ->
  0 <= VelocityPID.pwm s <= VelocityPID.heater_max_power P ->
  let s' := VelocityPID.outcome_state (VelocityPID.temperature_update P s rt temp tg) in
  length (VelocityPID.temps s') = 3%nat /\ length (VelocityPID.times s') = 3%nat /\
  0 <= VelocityPID.pwm s' <= VelocityPID.heater_max_power P.
Proof.
  intros Hmp Hl1 Hl2 Hp. cbv zeta.
  unfold VelocityPID.temperature_update. cbv zeta.
  destruct (Qeq_bool _ 0); cbn.
  - rewrite !rotate_length by lia. auto.
  - rewrite !rotate_length by lia. split; [lia|]. split; [lia|].
    destruct (Qlt_bool 0 tg); [apply clamp_range; exact Hmp|lra].
Qed.

(** X7: for [heater_max_power >= 0], a velocity PID whose two lists have
    three elements and whose [pwm] lies in [[0, heater_max_power]] keeps
    both properties over any sequence of samples, raising calls included. *)
Theorem vpid_run_invariant (P : VelocityPID.params)
    (Hmp : 0 <= VelocityPID.heater_max_power P)
    (samples : list (Q * Q * Q)) :
  forall s,
  length (VelocityPID.temps s) = 3%nat -> length (VelocityPID.times s) = 3%nat ->
  0 <= VelocityPID.pwm s <= VelocityPID.heater_max_power P ->
  let s' := VelocityPID.run P s samples in
  length (VelocityPID.temps s') = 3%nat /\ length (VelocityPID.times s') = 3%nat /\
  0 <= VelocityPID.pwm s' <= VelocityPID.heater_max_power P.
Proof.
  induction samples as [|[[rt t] tg] rest IH]; intros s H1 H2 H3; cbv zeta.
  - auto.
  - cbn [VelocityPID.run].
    destruct (vpid_step_inv P s rt t tg Hmp H1 H2 H3) as [G1 [G2 G3]].
    exact (IH _ G1 G2 G3).
Qed.

Lemma vpid_done_step (P : VelocityPID.params) (s : VelocityPID.state)
    (rt temp tg : Q) :
  length (VelocityPID.times s) = 3%nat ->
  VelocityPID.last1 (VelocityPID.times s) < rt ->
  exists s' d, VelocityPID.temperature_update P s rt temp tg = VelocityPID.Done s' d /\
    length (VelocityPID.times s') = 3%nat /\
    VelocityPID.last1 (VelocityPID.times s') = rt.
Proof.
  destruct s as [tp tm a b c]. cbn [VelocityPID.times].
  destruct tm as [|x [|y [|z [|w tm]]]]; cbn; try discriminate.
  intros _ Hlt. unfold VelocityPID.last1 in Hlt. cbn in Hlt.
  unfold VelocityPID.temperature_update. cbv zeta.
  destruct (Qeq_bool _ 0) eqn:E.
  - apply Qeq_bool_iff in E. unfold VelocityPID.last1, VelocityPID.last2 in E.
    cbn in E. lra.
  - do 2 eexists. split; [reflexivity|]. split; reflexivity.
Qed.

(** X8: a velocity PID with three stored times never raises over a
    sequence of samples whose read times strictly increase after the last
    stored time: the [ZeroDivisionError] needs a repeated read time. *)
Theorem vpid_increasing_times_never_raise (P : VelocityPID.params)
    (samples : list (Q * Q * Q)) :
  forall s, length (VelocityPID.times s) = 3%nat ->
  increasing_from (VelocityPID.last1 (VelocityPID.times s)) samples ->
  vpid_all_done P s samples.
Proof.
  induction samples as [|[[rt t] tg] rest IH]; intros s Hl Hinc; [exact I|].
  cbn in Hinc |- *. destruct Hinc as [Hlt Hinc].
  destruct (vpid_done_step P s rt t tg Hl Hlt) as [s' [d [-> [Hl' Hr]]]].
  apply IH; [exact Hl'|]. rewrite Hr. exact Hinc.
Qed.

(** X9: after a successful start-up, the current profile is named
    ['default'], is the map's ['default'] entry, has the control of the
    heater's own section, and has no [smooth_time] entry. *)
Theorem startup_default_profile (stored : list (string * ProfileManager.section))
    (heater_sec : ProfileManager.section)
    (autosave : gmap string (list (string * string)))
    (m : ProfileManager.manager) (p : ProfileManager.profile)
    (Hstart : ProfileManager.startup stored heater_sec autosave
              = ProfileManager.Ok (m, p)) :
  ProfileManager.name p = "default"%string /\
  ProfileManager.profiles m !! "default"%string = Some p /\
  ProfileManager.values p !! "smooth_time"%string = None /\
  ProfileManager.sec_control heater_sec = Some (ProfileManager.control p).
Proof.
  unfold ProfileManager.startup in Hstart.
  destruct (ProfileManager.init_stored _ stored) as [m0|e]; [|discriminate].
  unfold ProfileManager.init_profile in Hstart.
  destruct (negb _); [discriminate|].
  destruct (ProfileManager.sec_control heater_sec) as [ctl|]; [|discriminate].
  destruct (String.eqb ctl "watermark") eqn:W.
  - destruct (Qle_bool _ 0); [discriminate|].
    injection Hstart as <- <-. cbn.
    split; [reflexivity|]. split; [apply lookup_insert_eq|].
    split; [|reflexivity]. apply lookup_singleton_ne. discriminate.
  - destruct (String.eqb ctl "pid" || String.eqb ctl "pid_v")%bool; [|discriminate].
    destruct (ProfileManager.check_pid_values _ _ _) as [vs|e]; [|discriminate].
    injection Hstart as <- <-. cbn.
    split; [reflexivity|]. split; [apply lookup_insert_eq|].
    split; [|reflexivity]. apply lookup_delete_eq.
Qed.

Lemma check_pid_values_missing (sec : ProfileManager.section) (k : string)
    (Hk : k = "pid_kp"%string \/ k = "pid_ki"%string \/ k = "pid_kd"%string)
    (Hnone : ProfileManager.sec_values sec !! k = None) :
  forall keys acc, In k keys ->
  exists e, ProfileManager.check_pid_values sec keys acc = ProfileManager.Error e.
Proof.
  induction keys as [|key rest IH]; intros acc Hin; [destruct Hin|].
  cbn [ProfileManager.check_pid_values].
  destruct (String.eqb key k) eqn:Ek.
  - apply String.eqb_eq in Ek. subst key. rewrite Hnone.
    destruct Hk as [ -> | [ -> | -> ] ]; cbn; eauto.
  - apply String.eqb_neq in Ek.
    destruct Hin as [Hin|Hin]; [congruence|].
    destruct (ProfileManager.sec_values sec !! key) as [v|].
    + destruct (_ && Qle_bool v 0)%bool; [eauto|]. apply IH. exact Hin.
    + destruct (negb _); [apply IH; exact Hin|eauto].
Qed.

(** X10: a heater section with [pid] or [pid_v] control, of the current
    profile version, that lacks [pid_kp], [pid_ki] or [pid_kd] makes the
    start-up fail. *)
Theorem startup_needs_gains (stored : list (string * ProfileManager.section))
    (heater_sec : ProfileManager.section)
    (autosave : gmap string (list (string * string))) (ctl k : string)
    (Hver : ProfileManager.section_pid_version heater_sec = PID_PROFILE_VERSION)
    (Hctl : ProfileManager.sec_control heater_sec = Some ctl)
    (Hpid : ctl = "pid"%string \/ ctl = "pid_v"%string)
    (Hk : k = "pid_kp"%string \/ k = "pid_ki"%string \/ k = "pid_kd"%string)
    (Hnone : ProfileManager.sec_values heater_sec !! k = None) :
  exists e, ProfileManager.startup stored heater_sec autosave = ProfileManager.Error e.
Proof.
  unfold ProfileManager.startup.
  destruct (ProfileManager.init_stored _ stored) as [m0|e]; [|eauto].
  unfold ProfileManager.init_profile. rewrite Hver. cbn [Z.eqb negb PID_PROFILE_VERSION].
  rewrite Hctl.
  destruct (check_pid_values_missing heater_sec k Hk Hnone
              ProfileManager.pid_float_keys ∅) as [e He].
  { unfold ProfileManager.pid_float_keys. destruct Hk as [ -> | [ -> | -> ] ]; cbn; tauto. }
  destruct Hpid as [ -> | -> ]; rewrite He; cbn; eauto.
Qed.

(** X11: right after [remove_profile] of a name, loading that name fails
    with the LOAD_CLEAN error when that parameter is invalid; otherwise it
    is a no-op when it is the current profile's name and LOAD_CLEAN is 0;
    otherwise it fails with the KEEP_TARGET error when that parameter is
    invalid, with the unknown-profile error without DEFAULT, and with
    another DEFAULT name loads that profile or fails with the
    unknown-default error. *)
Theorem remove_then_load (short_name : string) (m : ProfileManager.manager)
    (cur_name n : string) (lcp ktp : ProfileManager.int_param)
    (default : option string) :
  let m' := fst (ProfileManager.remove_profile short_name m n) in
  (forall e, ProfileManager.get_int_01 "LOAD_CLEAN" lcp = ProfileManager.Error e ->
     ProfileManager.load_profile short_name m' cur_name n lcp ktp default
     = ProfileManager.LoadError e) /\
  (n = cur_name -> ProfileManager.get_int_01 "LOAD_CLEAN" lcp = ProfileManager.Ok 0%Z ->
     ProfileManager.load_profile short_name m' cur_name n lcp ktp default
     = ProfileManager.AlreadyLoaded) /\
  (forall lc, ProfileManager.get_int_01 "LOAD_CLEAN" lcp = ProfileManager.Ok lc ->
     n <> cur_name \/ lc <> 0%Z ->
     (forall e, ProfileManager.get_int_01 "KEEP_TARGET" ktp = ProfileManager.Error e ->
        ProfileManager.load_profile short_name m' cur_name n lcp ktp default
        = ProfileManager.LoadError e) /\
     (forall kt, ProfileManager.get_int_01 "KEEP_TARGET" ktp = ProfileManager.Ok kt ->
       (default = None ->
          ProfileManager.load_profile short_name m' cur_name n lcp ktp default
          = ProfileManager.LoadError ("pid_profile: Unknown profile [" ++ n
                                      ++ "] for heater [" ++ short_name ++ "].")) /\
       (forall d, default = Some d -> d <> n ->
          ProfileManager.load_profile short_name m' cur_name n lcp ktp default
          = match ProfileManager.profiles m !! d with
            | Some q => ProfileManager.Loaded q true lc kt
            | None => ProfileManager.LoadError ("pid_profile: Unknown default profile ["
                        ++ d ++ "] for heater [" ++ short_name ++ "].")
            end))).
Proof.
  cbv zeta.
  assert (Hn : ProfileManager.profiles
                 (fst (ProfileManager.remove_profile short_name m n)) !! n = None).
  { unfold ProfileManager.remove_profile.
    destruct (ProfileManager.profiles m !! n) eqn:E; cbn;
      [apply lookup_delete_eq|exact E]. }
  assert (Ho : forall d, d <> n ->
            ProfileManager.profiles
              (fst (ProfileManager.remove_profile short_name m n)) !! d
            = ProfileManager.profiles m !! d).
  { intros d Hd. unfold ProfileManager.remove_profile.
    destruct (ProfileManager.profiles m !! n); cbn; [|reflexivity].
    apply lookup_delete_ne. congruence. }
  unfold ProfileManager.load_profile. split; [|split].
  - intros e ->. reflexivity.
  - intros -> ->. rewrite String.eqb_refl. reflexivity.
  - intros lc Hlc Hc. rewrite Hlc.
    assert (Hskip : (String.eqb n cur_name && Z.eqb lc 0)%bool = false).
    { destruct Hc as [Hc|Hc].
      - rewrite (proj2 (String.eqb_neq n cur_name) Hc). reflexivity.
      - rewrite (proj2 (Z.eqb_neq lc 0) Hc). apply andb_false_r. }
    rewrite Hskip. split.
    + intros e ->. reflexivity.
    + intros kt ->. rewrite Hn. split.
      * intros ->. reflexivity.
      * intros d -> Hd. rewrite (Ho d Hd). reflexivity.
Qed.

Module RegistryFacts.
Import PrinterHeaters.

Lemma turn_off_loop_spec (l : list (string * (Heater.config * Heater.state))) :
  forall R, NoDup (fst <$> l) ->
  (forall k h, (k, h) ∈ l -> heaters R !! k = Some h) ->
  exists R', turn_off_loop R l = Returned R' tt /\
    R' = with_heaters R (heaters R') /\
    forall j, heaters R' !! j =
      if decide (j ∈ fst <$> l) then heater_off <$> heaters R !! j
      else heaters R !! j.
Proof.
  induction l as [|[k [c s]] rest IH]; intros R Hnd Hl.
  - exists R. split; [reflexivity|]. split; [destruct R; reflexivity|].
    intro j. rewrite decide_False; [reflexivity|]. cbn. intro H. inversion H.
  - cbn [turn_off_loop]. unfold Heater.set_temp at 1. cbn.
    cbn in Hnd. apply NoDup_cons in Hnd as [Hk Hnd].
    set (R1 := with_heaters R (<[k := (c, Heater.with_target s 0)]> (heaters R))).
    assert (Hk0 : heaters R !! k = Some (c, s)).
    { apply Hl. left. }
    destruct (IH R1 Hnd) as [R' [Hr [Hw Hj]]].
    { intros k' h' Hin. cbn. rewrite lookup_insert_ne.
      - apply Hl. right. exact Hin.
      - intros <-. apply Hk. apply list_elem_of_fmap. exists (k, h'). split; [reflexivity|exact Hin]. }
    exists R'. split; [exact Hr|]. split.
    + rewrite Hw at 1. reflexivity.
    + intro j. rewrite Hj. unfold R1. cbn [heaters with_heaters].
      change (((k, (c, s)) :: rest).*1) with (k :: rest.*1).
      destruct (decide (j ∈ k :: rest.*1)) as [Hin|Hnin];
        destruct (decide (j ∈ rest.*1)) as [Hin'|Hnin'].
      * rewrite lookup_insert_ne; [reflexivity|].
        intros ->. contradiction.
      * apply elem_of_cons in Hin as [->|Hin]; [|contradiction].
        rewrite lookup_insert_eq, Hk0. reflexivity.
      * exfalso. apply Hnin. right. exact Hin'.
      * rewrite lookup_insert_ne; [reflexivity|].
        intros ->. apply Hnin. left.
Qed.

Lemma turn_off_all_heaters_spec (R : registry) :
  exists R', turn_off_all_heaters R = Returned R' tt /\
    R' = with_heaters R (heaters R') /\
    forall k, heaters R' !! k = heater_off <$> heaters R !! k.
Proof.
  unfold turn_off_all_heaters.
  destruct (turn_off_loop_spec (map_to_list (heaters R)) R)
    as [R' [Hr [Hw Hj]]].
  - apply NoDup_fst_map_to_list.
  - intros k h Hin. apply elem_of_map_to_list. exact Hin.
  - exists R'. split; [exact Hr|]. split; [exact Hw|].
    intro k. rewrite Hj.
    destruct (decide _) as [Hin|Hnin]; [reflexivity|].
    destruct (heaters R !! k) as [h|] eqn:E; [|reflexivity].
    exfalso. apply Hnin. apply list_elem_of_fmap. exists (k, h).
    split; [reflexivity|]. apply elem_of_map_to_list. exact E.
Qed.

End RegistryFacts.

(** X16: [turn_off_all_heaters] never raises; afterwards every registered
    heater keeps its configuration and state except its target, which is
    [0], no heater is added or removed, and the other registry fields are
    unchanged. *)
Theorem turn_off_all_heaters_zero (R : PrinterHeaters.registry) :
  exists R', PrinterHeaters.turn_off_all_heaters R = PrinterHeaters.Returned R' tt /\
    R' = PrinterHeaters.with_heaters R (PrinterHeaters.heaters R') /\
    forall k, PrinterHeaters.heaters R' !! k =
      heater_off <$> PrinterHeaters.heaters R !! k.
Proof.
  exact (RegistryFacts.turn_off_all_heaters_spec R).
Qed.

(** X4: after [turn_off_all_heaters], a registered heater's target is [0],
    and as long as no new target is requested ([set_temp],
    [alter_target]), whatever [set_pwm] or [temperature_callback] is called
    with (any duty the control computes), it only ever writes [0] to the
    MCU. *)
Theorem turn_off_then_idle_writes_zero (R R' : PrinterHeaters.registry)
    (k : string) (c : Heater.config) (s : Heater.state) (ops : list Heater.op)
    (Hoff : PrinterHeaters.turn_off_all_heaters R = PrinterHeaters.Returned R' tt)
    (Hk : PrinterHeaters.heaters R' !! k = Some (c, s))
    (Hops : forallb idle_op ops = true) :
  Heater.target_temp s == 0 /\
  exists new, Heater.mcu_writes (Heater.run c s ops) = new ++ Heater.mcu_writes s /\
              Forall (fun w : Q * Q => snd w = 0) new.
Proof.
  destruct (RegistryFacts.turn_off_all_heaters_spec R) as [R'' [Hr [_ Hj]]].
  rewrite Hoff in Hr. injection Hr as <-.
  rewrite Hj in Hk.
  destruct (PrinterHeaters.heaters R !! k) as [[c0 s0]|]; cbn in Hk;
    [|discriminate].
  injection Hk as <- <-. split; [reflexivity|].
  apply (idle_run c0 ops (Heater.with_target s0 0)); [cbn; lra|exact Hops].
Qed.




(** X13: when [setup_heater] returns, the heater name was free, it now
    maps to the new heater (which [lookup_heater] finds and which is
    returned), other names are unchanged, the section name is appended to
    [available_heaters] and [available_sensors], the sensor type is known,
    and a G-code id, when given, was free and now maps to the section. *)
Theorem setup_heater_registers (default_sensor_types : gset string)
    (R R' : PrinterHeaters.registry) (config_name sensor_type : string)
    (cfg_gcode_id gcode_id : option string)
    (heater h : Heater.config * Heater.state) (n : string)
    (Hname : PrinterHeaters.py_last (PrinterHeaters.py_split config_name) = Some n)
    (Hok : PrinterHeaters.setup_heater default_sensor_types R config_name
             sensor_type cfg_gcode_id gcode_id heater
           = PrinterHeaters.Returned R' h) :
  h = heater /\
  PrinterHeaters.heaters R !! n = None /\
  PrinterHeaters.lookup_heater R' n = Heater.Ok heater /\
  (forall k, k <> n -> PrinterHeaters.heaters R' !! k = PrinterHeaters.heaters R !! k) /\
  PrinterHeaters.available_heaters R'
    = PrinterHeaters.available_heaters R ++ [config_name] /\
  PrinterHeaters.available_sensors R'
    = PrinterHeaters.available_sensors R ++ [config_name] /\
  sensor_type ∈ PrinterHeaters.sensor_factories R' /\
  (forall g, (match gcode_id with Some g => Some g | None => cfg_gcode_id end) = Some g ->
     PrinterHeaters.gcode_id_to_sensor R !! g = None /\
     PrinterHeaters.gcode_id_to_sensor R' !! g = Some config_name).
Proof.
  unfold PrinterHeaters.setup_heater in Hok. rewrite Hname in Hok.
  destruct (decide (is_Some (PrinterHeaters.heaters R !! n))) as [Hs|Hs];
    [discriminate|].
  assert (Hnone : PrinterHeaters.heaters R !! n = None).
  { destruct (PrinterHeaters.heaters R !! n) eqn:E; [|reflexivity].
    exfalso. apply Hs. eexists; reflexivity. }
  unfold PrinterHeaters.setup_sensor in Hok.
  set (R0 := if PrinterHeaters.have_load_sensors R then R
             else PrinterHeaters.load_config default_sensor_types R) in Hok.
  assert (E0 : PrinterHeaters.heaters R0 = PrinterHeaters.heaters R /\
               PrinterHeaters.available_heaters R0 = PrinterHeaters.available_heaters R /\
               PrinterHeaters.available_sensors R0 = PrinterHeaters.available_sensors R /\
               PrinterHeaters.gcode_id_to_sensor R0 = PrinterHeaters.gcode_id_to_sensor R).
  { unfold R0. destruct (PrinterHeaters.have_load_sensors R); repeat split. }
  destruct E0 as [E1 [E2 [E3 E4]]].
  destruct (decide (sensor_type ∈ PrinterHeaters.sensor_factories R0)) as [Hst|];
    [|discriminate].
  unfold PrinterHeaters.register_sensor in Hok. cbn in Hok.
  destruct (match gcode_id with Some g => Some g | None => cfg_gcode_id end)
    as [g0|] eqn:Eg.
  - destruct (decide _) as [Hg|Hg]; [discriminate|].
    injection Hok as <- <-. cbn.
    split; [reflexivity|]. split; [exact Hnone|].
    unfold PrinterHeaters.lookup_heater; cbn.
    split; [rewrite lookup_insert_eq; reflexivity|].
    split; [intros k Hk; rewrite lookup_insert_ne, E1 by congruence; reflexivity|].
    split; [rewrite E2; reflexivity|]. split; [rewrite E3; reflexivity|].
    split; [exact Hst|].
    intros g Hgg. injection Hgg as <-. split.
    + rewrite <- E4. destruct (PrinterHeaters.gcode_id_to_sensor R0 !! g0) eqn:E;
        [|reflexivity]. exfalso. apply Hg. eexists; reflexivity.
    + apply lookup_insert_eq.
  - injection Hok as <- <-. cbn.
    split; [reflexivity|]. split; [exact Hnone|].
    unfold PrinterHeaters.lookup_heater; cbn.
    split; [rewrite lookup_insert_eq; reflexivity|].
    split; [intros k Hk; rewrite lookup_insert_ne, E1 by congruence; reflexivity|].
    split; [rewrite E2; reflexivity|]. split; [rewrite E3; reflexivity|].
    split; [exact Hst|]. discriminate.
Qed.

(** X14: when the G-code id of a new heater (the argument, or else the
    section's [gcode_id] option) is already taken, [setup_heater] raises
    after having registered the heater under its name and appended the
    section to [available_sensors] (not to [available_heaters]); a second
    attempt then fails with "already registered". *)
Theorem setup_heater_gcode_conflict (default_sensor_types : gset string)
    (R : PrinterHeaters.registry) (config_name sensor_type : string)
    (cfg_gcode_id gcode_id : option string) (g : string) (v : string)
    (heater : Heater.config * Heater.state) (n : string)
    (Hname : PrinterHeaters.py_last (PrinterHeaters.py_split config_name) = Some n)
    (Hfree : PrinterHeaters.heaters R !! n = None)
    (Hst : sensor_type ∈ (if PrinterHeaters.have_load_sensors R
                          then PrinterHeaters.sensor_factories R
                          else default_sensor_types ∪ PrinterHeaters.sensor_factories R))
    (Hg : (match gcode_id with Some g => Some g | None => cfg_gcode_id end) = Some g)
    (Hused : PrinterHeaters.gcode_id_to_sensor R !! g = Some v) :
  exists R',
    PrinterHeaters.setup_heater default_sensor_types R config_name sensor_type
      cfg_gcode_id gcode_id heater
    = PrinterHeaters.Raised R' ("G-Code sensor id " ++ g ++ " already registered") /\
    PrinterHeaters.heaters R' !! n = Some heater /\
    PrinterHeaters.available_heaters R' = PrinterHeaters.available_heaters R /\
    PrinterHeaters.available_sensors R'
      = PrinterHeaters.available_sensors R ++ [config_name] /\
    PrinterHeaters.gcode_id_to_sensor R' = PrinterHeaters.gcode_id_to_sensor R /\
    PrinterHeaters.setup_heater default_sensor_types R' config_name sensor_type
      cfg_gcode_id gcode_id heater
    = PrinterHeaters.Raised R' ("Heater " ++ n ++ " already registered").
Proof.
  unfold PrinterHeaters.setup_heater at 1. rewrite Hname.
  rewrite decide_False by (rewrite Hfree; intros [x Hx]; discriminate).
  unfold PrinterHeaters.setup_sensor, PrinterHeaters.register_sensor.
  rewrite Hg.
  destruct (PrinterHeaters.have_load_sensors R); cbn;
    (rewrite decide_True by exact Hst);
    (rewrite decide_True by (cbn; rewrite Hused; eexists; reflexivity));
    (eexists; split; [reflexivity|]); cbn;
    (split; [apply lookup_insert_eq|]); (split; [reflexivity|]);
    (split; [reflexivity|]); (split; [reflexivity|]);
    unfold PrinterHeaters.setup_heater; rewrite Hname; cbn;
    (rewrite decide_True by (rewrite lookup_insert_eq; eexists; reflexivity));
    reflexivity.
Qed.

(** X15: [register_sensor] never rebinds a G-code id that is already
    registered, returning or raising, and always appends the section to
    [available_sensors]. *)
Theorem register_sensor_keeps_ids (R : PrinterHeaters.registry)
    (config_name : string) (cfg_gcode_id gcode_id : option string)
    (g v : string)
    (Hused : PrinterHeaters.gcode_id_to_sensor R !! g = Some v) :
  let R' := PrinterHeaters.registry_of
              (PrinterHeaters.register_sensor R config_name cfg_gcode_id gcode_id) in
  PrinterHeaters.gcode_id_to_sensor R' !! g = Some v /\
  PrinterHeaters.available_sensors R'
    = PrinterHeaters.available_sensors R ++ [config_name] /\
  PrinterHeaters.heaters R' = PrinterHeaters.heaters R.
Proof.
  cbv zeta. unfold PrinterHeaters.register_sensor.
  destruct (match gcode_id with Some g => Some g | None => cfg_gcode_id end)
    as [g0|]; cbn; [|auto].
  destruct (decide _) as [Hg|Hg]; cbn; [auto|].
  split; [|split; reflexivity].
  rewrite lookup_insert_ne; [exact Hused|].
  intros <-. apply Hg. eexists. exact Hused.
Qed.


(* ------------------------------------------------------------------ *)
(** * Instances of the further properties on concrete inputs *)

(** X1: a heater with target 0 that last wrote 0.5: a full-power request,
    a shutdown and a reading add only a write of 0. *)
Lemma idle_heater_writes_zero_witness :
  let s := Heater.mk_state 0 false 0 (1 # 2) 20 0 20 1 [(1, 1 # 2)] in
  let ops := [Heater.OpSetPwm 10 1; Heater.OpShutdown;
              Heater.OpTemperatureCallback 20 25 1] in
  Heater.target_temp s <= 0 /\ forallb idle_op ops = true /\
  exists new, Heater.mcu_writes (Heater.run example_cfg s ops)
              = new ++ Heater.mcu_writes s /\
              Forall (fun w : Q * Q => snd w = 0) new.
Proof.
  cbv zeta. split; [vm_compute; discriminate|]. split; [reflexivity|].
  apply (proj2 (idle_heater_writes_zero example_cfg
                  [Heater.OpSetPwm 10 1; Heater.OpShutdown;
                   Heater.OpTemperatureCallback 20 25 1]
                  (Heater.mk_state 0 false 0 (1 # 2) 20 0 20 1 [(1, 1 # 2)])
                  ltac:(vm_compute; discriminate) eq_refl)).
Defined.

(** X3: two seconds after the last reading with [inv_smooth_time = 1], a
    reading of 30 replaces the smoothed 20. *)
Lemma temperature_callback_smoothing_witness :
  Heater.last_temp_time example_heater <= 2 /\
  0 <= Heater.inv_smooth_time example_heater /\
  Heater.smoothed_temp (Heater.temperature_callback example_cfg example_heater 2 30 1)
  == 30.
Proof.
  assert (H1 : Heater.last_temp_time example_heater <= 2)
    by (vm_compute; discriminate).
  assert (H2 : 0 <= Heater.inv_smooth_time example_heater)
    by (vm_compute; discriminate).
  split; [exact H1|]. split; [exact H2|].
  pose proof (temperature_callback_smoothing example_cfg example_heater 2 30 1
                H1 H2) as H.
  cbv zeta in H. destruct H as [_ [_ [_ [_ H]]]].
  apply H. vm_compute. discriminate.
Defined.

(** X4: the extruder of [example_registry_t0] turned off, then a
    temperature reading with duty 1 and a [set_pwm] of 1. *)
Lemma turn_off_then_idle_writes_zero_witness :
  let R' := PrinterHeaters.registry_of
              (PrinterHeaters.turn_off_all_heaters example_registry_t0) in
  let ops := [Heater.OpTemperatureCallback 1 25 1; Heater.OpSetPwm 2 1] in
  PrinterHeaters.turn_off_all_heaters example_registry_t0
    = PrinterHeaters.Returned R' tt /\
  PrinterHeaters.heaters R' !! "extruder"%string
    = Some (example_cfg, Heater.with_target example_heater 0) /\
  forallb idle_op ops = true /\
  exists new, Heater.mcu_writes
                (Heater.run example_cfg (Heater.with_target example_heater 0) ops)
              = new ++ Heater.mcu_writes (Heater.with_target example_heater 0) /\
              Forall (fun w : Q * Q => snd w = 0) new.
Proof.
  cbv zeta.
  assert (Hoff : PrinterHeaters.turn_off_all_heaters example_registry_t0
    = PrinterHeaters.Returned (PrinterHeaters.registry_of
        (PrinterHeaters.turn_off_all_heaters example_registry_t0)) tt)
    by (vm_compute; reflexivity).
  assert (Hk : PrinterHeaters.heaters (PrinterHeaters.registry_of
        (PrinterHeaters.turn_off_all_heaters example_registry_t0)) !! "extruder"%string
    = Some (example_cfg, Heater.with_target example_heater 0))
    by (vm_compute; reflexivity).
  split; [exact Hoff|]. split; [exact Hk|]. split; [reflexivity|].
  exact (proj2 (turn_off_then_idle_writes_zero _ _ _ _ _
           [Heater.OpTemperatureCallback 1 25 1; Heater.OpSetPwm 2 1]
           Hoff Hk eq_refl)).
Defined.

(** X5: 290 is refused by [set_temp] and stored by [alter_target]. *)
Lemma alter_target_passes_max_set_temp_witness :
  ~ 290 == 0 /\
  Heater.min_temp example_cfg <= Heater.max_set_temp example_cfg /\
  Heater.max_set_temp example_cfg < 290 <= Heater.max_temp example_cfg /\
  Heater.target_temp (Heater.alter_target example_cfg example_heater 290) == 290.
Proof.
  assert (H1 : ~ 290 == 0) by (vm_compute; discriminate).
  assert (H2 : Heater.min_temp example_cfg <= Heater.max_set_temp example_cfg)
    by (vm_compute; discriminate).
  assert (H3 : Heater.max_set_temp example_cfg < 290 <= Heater.max_temp example_cfg)
    by (vm_compute; split; [reflexivity|discriminate]).
  split; [exact H1|]. split; [exact H2|]. split; [exact H3|].
  exact (proj2 (alter_target_passes_max_set_temp example_cfg example_heater 290
                  H1 H2 H3)).
Defined.

(** X6: an accumulated integral of 7 is dropped at target 0. *)
Lemma pid_idle_resets_witness :
  0 <= 0 /\
  PID.int_sum (fst (PID.temperature_update example_pid (PID.mk_state 20 5 0 7) 30 0))
  = 0.
Proof.
  split; [lra|].
  pose proof (pid_idle_resets example_pid (PID.mk_state 20 5 0 7) 30 0
                ltac:(lra)) as H.
  cbv zeta in H. destruct H as [_ [_ [H _]]]. exact H.
Defined.

(** X7: two samples, the second at a repeated time (it raises). *)
Lemma vpid_run_invariant_witness :
  0 <= VelocityPID.heater_max_power example_vpid /\
  let s' := VelocityPID.run example_vpid example_vpid_state
              [(3, 150, 200); (3, 40, 200)] in
  length (VelocityPID.temps s') = 3%nat /\ length (VelocityPID.times s') = 3%nat /\
  0 <= VelocityPID.pwm s' <= VelocityPID.heater_max_power example_vpid.
Proof.
  assert (Hmp : 0 <= VelocityPID.heater_max_power example_vpid)
    by (vm_compute; discriminate).
  split; [exact Hmp|].
  apply (vpid_run_invariant example_vpid Hmp [(3, 150, 200); (3, 40, 200)]
           example_vpid_state); [reflexivity|reflexivity|].
  vm_compute. split; discriminate.
Defined.

(** X8: readings at times 3 and 4 after the stored times 0, 1, 2. *)
Lemma vpid_increasing_times_never_raise_witness :
  length (VelocityPID.times example_vpid_state) = 3%nat /\
  increasing_from (VelocityPID.last1 (VelocityPID.times example_vpid_state))
    [(3, 25, 200); (4, 30, 200)] /\
  vpid_all_done example_vpid example_vpid_state [(3, 25, 200); (4, 30, 200)].
Proof.
  assert (Hinc : increasing_from
                   (VelocityPID.last1 (VelocityPID.times example_vpid_state))
                   [(3, 25, 200); (4, 30, 200)])
    by (vm_compute; split; [reflexivity|split; [reflexivity|exact I]]).
  split; [reflexivity|]. split; [exact Hinc|].
  exact (vpid_increasing_times_never_raise example_vpid
           [(3, 25, 200); (4, 30, 200)] example_vpid_state eq_refl Hinc).
Defined.

(** X9: the example start-up. *)
Lemma startup_default_profile_witness :
  ProfileManager.startup example_stored example_pid_section ∅
    = ProfileManager.Ok (fst example_startup, snd example_startup) /\
  ProfileManager.values (snd example_startup) !! "smooth_time"%string = None.
Proof.
  assert (Hst : ProfileManager.startup example_stored example_pid_section ∅
                = ProfileManager.Ok (fst example_startup, snd example_startup))
    by (vm_compute; reflexivity).
  split; [exact Hst|].
  exact (proj1 (proj2 (proj2 (startup_default_profile example_stored
           example_pid_section ∅ _ _ Hst)))).
Defined.

(** X10: a PID heater section without [pid_kd]. *)
Lemma startup_needs_gains_witness :
  let sec := ProfileManager.mk_section None (Some "pid"%string)
               (<["pid_kp" := 22]> {["pid_ki" := 1]}) in
  ProfileManager.section_pid_version sec = PID_PROFILE_VERSION /\
  ProfileManager.sec_values sec !! "pid_kd"%string = None /\
  exists e, ProfileManager.startup [] sec ∅ = ProfileManager.Error e.
Proof.
  cbv zeta. split; [reflexivity|]. split; [reflexivity|].
  apply (startup_needs_gains []
           (ProfileManager.mk_section None (Some "pid"%string)
              (<["pid_kp" := 22]> {["pid_ki" := 1]}))
           ∅ "pid" "pid_kd" eq_refl eq_refl);
    [left; reflexivity|right; right; reflexivity|reflexivity].
Defined.

(** X11: [foo] removed, then loaded with LOAD_CLEAN=1, no KEEP_TARGET and
    DEFAULT=default. *)
Lemma remove_then_load_witness :
  let p := ProfileManager.mk_profile "pid" "default" ∅ in
  let q := ProfileManager.mk_profile "pid" "foo" ∅ in
  let m := ProfileManager.mk_manager
             (<["foo"%string := q]> {["default"%string := p]}) [] ∅ in
  ProfileManager.load_profile "extruder"
    (fst (ProfileManager.remove_profile "extruder" m "foo")) "foo" "foo"
    (ProfileManager.Given 1) ProfileManager.Absent (Some "default"%string)
  = ProfileManager.Loaded p true 1 0.
Proof.
  cbv zeta.
  pose proof (remove_then_load "extruder"
    (ProfileManager.mk_manager
       (<["foo"%string := ProfileManager.mk_profile "pid" "foo" ∅]>
          {["default"%string := ProfileManager.mk_profile "pid" "default" ∅]}) [] ∅)
    "foo" "foo" (ProfileManager.Given 1) ProfileManager.Absent
    (Some "default"%string)) as H.
  cbv zeta in H. destruct H as [_ [_ H]].
  rewrite (proj2 (proj2 (H 1%Z eq_refl ltac:(right; discriminate)) 0%Z eq_refl)
             "default" eq_refl ltac:(discriminate)).
  reflexivity.
Defined.


(** X13: an extruder registered with G-code id [T0]. *)
Lemma setup_heater_registers_witness :
  PrinterHeaters.py_last (PrinterHeaters.py_split "extruder")
    = Some "extruder"%string /\
  match PrinterHeaters.setup_heater ∅ example_registry "extruder" "PT1000" None
          (Some "T0"%string) (example_cfg, example_heater) with
  | PrinterHeaters.Returned R' _ =>
      PrinterHeaters.lookup_heater R' "extruder" = Heater.Ok (example_cfg, example_heater)
  | PrinterHeaters.Raised _ _ => False
  end.
Proof.
  assert (Hn : PrinterHeaters.py_last (PrinterHeaters.py_split "extruder")
               = Some "extruder"%string) by (vm_compute; reflexivity).
  split; [exact Hn|].
  destruct (PrinterHeaters.setup_heater ∅ example_registry "extruder" "PT1000" None
              (Some "T0"%string) (example_cfg, example_heater)) as [R' h|R' e] eqn:E.
  - exact (proj1 (proj2 (proj2 (setup_heater_registers ∅ _ _ _ _ _ _ _ _ _ Hn E)))).
  - exfalso. vm_compute in E. discriminate.
Defined.

(** X14: a [heater_generic chamber] whose [gcode_id] option is the
    extruder's G-code id [T0]. *)
Lemma setup_heater_gcode_conflict_witness :
  PrinterHeaters.py_last (PrinterHeaters.py_split "heater_generic chamber")
    = Some "chamber"%string /\
  exists R', PrinterHeaters.setup_heater ∅ example_registry_t0
               "heater_generic chamber" "PT1000" (Some "T0"%string) None
               (example_cfg, example_heater)
             = PrinterHeaters.Raised R' "G-Code sensor id T0 already registered" /\
             PrinterHeaters.heaters R' !! "chamber"%string
             = Some (example_cfg, example_heater).
Proof.
  assert (Hn : PrinterHeaters.py_last (PrinterHeaters.py_split "heater_generic chamber")
               = Some "chamber"%string) by (vm_compute; reflexivity).
  split; [exact Hn|].
  destruct (setup_heater_gcode_conflict ∅ example_registry_t0
              "heater_generic chamber" "PT1000" (Some "T0"%string) None "T0" "extruder"
              (example_cfg, example_heater) "chamber" Hn
              ltac:(vm_compute; reflexivity)
              ltac:(unfold example_registry_t0; cbn;
                    apply elem_of_singleton; reflexivity)
              eq_refl
              ltac:(vm_compute; reflexivity))
    as [R' [H1 [H2 _]]].
  exists R'. split; [exact H1|exact H2].
Defined.

(** X15: a chamber sensor asking for the extruder's G-code id [T0]. *)
Lemma register_sensor_keeps_ids_witness :
  PrinterHeaters.gcode_id_to_sensor example_registry_t0 !! "T0"%string
    = Some "extruder"%string /\
  PrinterHeaters.gcode_id_to_sensor
    (PrinterHeaters.registry_of
       (PrinterHeaters.register_sensor example_registry_t0
          "temperature_sensor chamber" None (Some "T0"%string))) !! "T0"%string
  = Some "extruder"%string.
Proof.
  assert (Hu : PrinterHeaters.gcode_id_to_sensor example_registry_t0 !! "T0"%string
               = Some "extruder"%string) by (vm_compute; reflexivity).
  split; [exact Hu|].
  exact (proj1 (register_sensor_keeps_ids example_registry_t0
                  "temperature_sensor chamber" None (Some "T0"%string)
                  "T0" "extruder" Hu)).
Defined.

